(** * GoToMeetingURLProvider: the release resolver of the GoToMeeting recipe

    A shallow embedding of [GoToMeeting/GoToMeetingURLProvider.py] and the
    properties of its resolver.

    Conventions of the embedding.
    - A Python [str] is a Rocq [string]; a character is a code point below
      256, which is enough for every operation the processor performs
      ([split], [join], truthiness and [int]).
    - A [bytes] object is a [list byte]; [self.env] maps names to strings.
    - A computation that may raise returns [result A := exn + A]; a
      computation that also touches the file system, the network or the
      log threads a [world] and keeps the world it reached when it raises.
    - Whatever the processor calls but does not define (the [os], [gzip]
      and [json] modules, [URLGetter.download_to_file], [Processor.output])
      is a field of the class [Host]. *)

From Stdlib Require Import ZArith String Ascii List Lia SpecFloat DecimalString.
From Stdlib.Strings Require Import Byte.
From stdpp Require Import base option list gmap strings.

Local Open Scope string_scope.
Local Open Scope Z_scope.
Set Warnings "-register-all".

(** ** Exceptions *)

(** The exception classes that can reach the processor, with the part of
    Python's class hierarchy the two [except] clauses of the source test. *)
Inductive pyclass : Type :=
| Exception
| LookupError | KeyError | IndexError
| TypeError | AttributeError
| ValueError | JSONDecodeError | UnicodeDecodeError
| ArithmeticError | OverflowError
| OSError | FileExistsError | FileNotFoundError | PermissionError | BadGzipFile
| EOFError | ZlibError
| RuntimeError | RecursionError
| ProcessorError.

#[global] Instance pyclass_eq_dec : EqDecision pyclass.
Proof. solve_decision. Defined.

(** The direct base class, [None] for [Exception] itself. *)
Definition base_class (c : pyclass) : option pyclass :=
  match c with
  | Exception => None
  | KeyError | IndexError => Some LookupError
  | JSONDecodeError | UnicodeDecodeError => Some ValueError
  | OverflowError => Some ArithmeticError
  | FileExistsError | FileNotFoundError | PermissionError | BadGzipFile => Some OSError
  | RecursionError => Some RuntimeError
  | LookupError | TypeError | AttributeError | ValueError | ArithmeticError
  | OSError | EOFError | ZlibError | RuntimeError | ProcessorError => Some Exception
  end.

(** [issubclass c d]; the hierarchy above is three levels deep. *)
Definition issubclass (c d : pyclass) : bool :=
  bool_decide (c = d)
  || match base_class c with
     | None => false
     | Some b =>
         bool_decide (b = d)
         || match base_class b with
            | None => false
            | Some b' => bool_decide (b' = d)
            end
     end.

Record exn : Type := Raise { exc_class : pyclass; exc_msg : string }.

#[global] Instance exn_eq_dec : EqDecision exn.
Proof. solve_decision. Defined.

(** [isinstance(e, c)], the test of an [except c:] clause. *)
Definition isinstance (e : exn) (c : pyclass) : bool := issubclass (exc_class e) c.

Definition result (A : Type) : Type := exn + A.

Definition rbind {A B} (r : result A) (k : A -> result B) : result B :=
  match r with
  | inl e => inl e
  | inr a => k a
  end.

Notation "'let?' x ':=' r 'in' k" := (rbind r (fun x => k))
  (at level 10, x pattern, r at level 100, k at level 200).

(** ** Values decoded by [json.loads] *)

(** A [dict] is an association list in insertion order; [json.loads] never
    produces a repeated key. *)
Inductive json : Type :=
| JNull
| JBool (b : bool)
| JInt (n : Z)
| JFloat (f : spec_float)
| JStr (s : string)
| JList (l : list json)
| JDict (d : list (string * json)).

Fixpoint dict_lookup (k : string) (d : list (string * json)) : option json :=
  match d with
  | [] => None
  | (k', v) :: d' => if String.eqb k k' then Some v else dict_lookup k d'
  end.

(** [obj[key]] for a [str] key. *)
Definition getitem (obj : json) (key : string) : result json :=
  match obj with
  | JDict d =>
      match dict_lookup key d with
      | Some v => inr v
      | None => inl (Raise KeyError key)
      end
  | JList _ => inl (Raise TypeError "list indices must be integers or slices, not str")
  | JStr _ => inl (Raise TypeError "string indices must be integers")
  | JNull | JBool _ | JInt _ | JFloat _ => inl (Raise TypeError "object is not subscriptable")
  end.

(** [obj.get(key)]: the value, or [None] when the key is absent. *)
Definition dict_get (obj : json) (key : string) : result json :=
  match obj with
  | JDict d => inr (default JNull (dict_lookup key d))
  | _ => inl (Raise AttributeError "object has no attribute 'get'")
  end.

(** Truth value of an object, as [not g2m_url] tests it. *)
Definition truthy (v : json) : bool :=
  match v with
  | JNull => false
  | JBool b => b
  | JInt n => negb (n =? 0)
  | JFloat (S754_zero _) => false
  | JFloat _ => true
  | JStr s => negb (String.eqb s "")
  | JList l => match l with [] => false | _ => true end
  | JDict d => match d with [] => false | _ => true end
  end.

(** The items [max] draws from its argument: the elements of a list, the
    keys of a dict, the characters of a string. *)
Definition iterate (v : json) : result (list json) :=
  match v with
  | JList l => inr l
  | JDict d => inr (map (fun kv => JStr (fst kv)) d)
  | JStr s => inr (map (fun c => JStr (String c "")) (list_ascii_of_string s))
  | JNull | JBool _ | JInt _ | JFloat _ => inl (Raise TypeError "object is not iterable")
  end.

(** ** [int] *)

(** White space [int] skips around the digits: the ASCII white space
    characters, and NEL and NBSP among the code points below 256. *)
Definition is_space (c : ascii) : bool :=
  let n := Z.of_nat (nat_of_ascii c) in
  ((9 <=? n) && (n <=? 13)) || (n =? 32) || (n =? 133) || (n =? 160).

Definition digit_value (c : ascii) : option Z :=
  let n := Z.of_nat (nat_of_ascii c) in
  if (48 <=? n) && (n <=? 57) then Some (n - 48) else None.

Fixpoint skip_spaces (s : string) : string :=
  match s with
  | String c s' => if is_space c then skip_spaces s' else s
  | EmptyString => s
  end.

(** The digits of a literal, single underscores allowed between two digits;
    returns the value and what follows the digits. [after_us] tells that
    the previous character was an underscore. *)
Fixpoint scan_digits (acc : Z) (after_us : bool) (s : string) : option (Z * string) :=
  match s with
  | String c s' =>
      match digit_value c with
      | Some d => scan_digits (10 * acc + d) false s'
      | None =>
          if Ascii.eqb c "_"
          then (if after_us then None else scan_digits acc true s')
          else (if after_us then None else Some (acc, s))
      end
  | EmptyString => if after_us then None else Some (acc, s)
  end.

(** [int(s)] for a string, base 10: optional white space, an optional
    sign, a digit, more digits, optional white space. The limit on the
    number of digits that CPython 3.11 added is not part of the model. *)
Definition int_of_str (s : string) : option Z :=
  let s1 := skip_spaces s in
  let '(sign, s2) :=
    match s1 with
    | String "+" r => (1, r)
    | String "-" r => (-1, r)
    | _ => (1, s1)
    end in
  match s2 with
  | String c _ =>
      match digit_value c with
      | Some _ =>
          match scan_digits 0 false s2 with
          | Some (n, rest) =>
              match skip_spaces rest with
              | EmptyString => Some (sign * n)
              | String _ _ => None
              end
          | None => None
          end
      | None => None
      end
  | EmptyString => None
  end.

(** [int(x)] on a decoded JSON value. A float is truncated towards zero. *)
Definition py_int (v : json) : result Z :=
  match v with
  | JStr s =>
      match int_of_str s with
      | Some n => inr n
      | None => inl (Raise ValueError "invalid literal for int() with base 10")
      end
  | JInt n => inr n
  | JBool b => inr (if b then 1 else 0)
  | JFloat f =>
      match f with
      | S754_zero _ => inr 0
      | S754_finite sg m e =>
          let mag := Z.shiftl (Z.pos m) e in
          inr (if sg then - mag else mag)
      | S754_infinity _ => inl (Raise OverflowError "cannot convert float infinity to integer")
      | S754_nan => inl (Raise ValueError "cannot convert float NaN to integer")
      end
  | JNull | JList _ | JDict _ =>
      inl (Raise TypeError "int() argument must be a string, a bytes-like object or a real number")
  end.

(** ** [max] with a key *)

(** The loop of [max(items, key=key)] once a first candidate is held: an
    item replaces the candidate only when its key is strictly greater, so
    the first of several maxima is kept. The key is computed for every
    item, in order, and an exception of the key ends the scan. *)
Fixpoint max_scan (key : json -> result Z) (best : json) (best_key : Z)
    (items : list json) : result json :=
  match items with
  | [] => inr best
  | x :: rest =>
      let? k := key x in
      if best_key <? k then max_scan key x k rest else max_scan key best best_key rest
  end.

Definition py_max (key : json -> result Z) (items : list json) : result json :=
  match items with
  | [] => inl (Raise ValueError "max() arg is an empty sequence")
  | x :: rest => let? k := key x in max_scan key x k rest
  end.

(** ** [str.split], item assignment and [str.join] *)

(** [s.split(sep)] for a separator of one character, the only use the
    source makes of it. The result is never empty. *)
Fixpoint str_split (sep : ascii) (s : string) : list string :=
  match s with
  | EmptyString => [EmptyString]
  | String c s' =>
      if Ascii.eqb c sep then EmptyString :: str_split sep s'
      else match str_split sep s' with
           | [] => [String c EmptyString]
           | p :: ps => String c p :: ps
           end
  end.

(** [parts[-1] = x]: an empty list has no last item. *)
Fixpoint set_last (parts : list string) (x : string) : result (list string) :=
  match parts with
  | [] => inl (Raise IndexError "list assignment index out of range")
  | [_] => inr [x]
  | p :: ps => let? ps' := set_last ps x in inr (p :: ps')
  end.

(** [sep.join(parts)]. *)
Fixpoint str_join (sep : string) (parts : list string) : string :=
  match parts with
  | [] => EmptyString
  | [p] => p
  | p :: ps => p ++ sep ++ str_join sep ps
  end.

(** [os.path.join(a, b)] on POSIX for a relative [b]. *)
Definition path_join (a b : string) : string :=
  match a with
  | EmptyString => b
  | _ => if String.eqb (substring (String.length a - 1)%nat 1%nat a) "/" then a ++ b else a ++ "/" ++ b
  end.

(** [str(x)] where the model computes it; a float and a container are
    printed by the host ([repr_other] below). *)
Definition py_str (repr_other : json -> string) (v : json) : string :=
  match v with
  | JStr s => s
  | JInt n => NilZero.string_of_int (Z.to_int n)
  | JBool true => "True"
  | JBool false => "False"
  | JNull => "None"
  | JFloat _ | JList _ | JDict _ => repr_other v
  end.

(** [g2m_url.split("/")]: only a [str] has the method. *)
Definition split_method (v : json) (sep : ascii) : result (list string) :=
  match v with
  | JStr s => inr (str_split sep s)
  | _ => inl (Raise AttributeError "object has no attribute 'split'")
  end.

(** ** The host of the processor *)

(** What the processor uses and does not define. [os_makedirs] is
    [os.makedirs], [download_to_file] the method inherited from
    [URLGetter], [read_binary path] is [open(path, "rb").read()],
    [gzip.open(path, "rb").read()] is [read_binary] followed by
    [gzip_decompress], [output] is [Processor.output], which reports a
    line and cannot fail. *)
Class Host : Type := {
  world : Type;
  os_makedirs : string -> world -> result unit * world;
  download_to_file : string -> string -> world -> result string * world;
  read_binary : string -> world -> result (list byte);
  gzip_decompress : list byte -> result (list byte);
  json_loads : list byte -> result json;
  output : string -> world -> world;
  repr_other : json -> string
}.

(** What the module reads of the machine it is loaded on:
    [autopkglib.is_mac()], [platform.mac_ver()[0]], the order of
    [APLooseVersion] and [socket.gethostbyname_ex], whose answer is the
    triple (hostname, aliaslist, ipaddrlist). *)
Record platform : Type := {
  is_mac : bool;
  mac_ver : string;
  loose_version_lt : string -> string -> bool;
  gethostbyname_ex : string -> result (string * list string * list string)
}.

(** The two module-level names. *)
Record module_globals : Type := { HOSTNAME : string; BASE_URL : string }.

(** The module body, lines 33 to 44. *)
Definition load_module (p : platform) : result module_globals :=
  let hostname := "builds.cdn.getgo.com" in
  let? hostname :=
    if is_mac p then
      if loose_version_lt p (mac_ver p) "10.13.0" then
        let? answer := gethostbyname_ex p "builds.cdn.getgo.com" in
        inr (fst (fst answer))
      else inr hostname
    else inr hostname in
  inr {| HOSTNAME := hostname;
         BASE_URL := "https://" ++ hostname ++ "/g2mupdater/live/config.json" |}.

Definition no_download_url : exn :=
  Raise ProcessorError
    "No download URL for the latest release found in the base_url JSON feed.".

Section Processor.
Context {H : Host}.

(** The processor object: [self.env] and the world behind the host. *)
Record processor : Type := { env : gmap string string; host_world : world }.

(** A method body: it may raise, and the state it reached is kept. *)
Definition Proc (A : Type) : Type := processor -> result A * processor.

Definition ret {A} (a : A) : Proc A := fun self => (inr a, self).

Definition bind {A B} (c : Proc A) (k : A -> Proc B) : Proc B :=
  fun self =>
    match c self with
    | (inl e, self') => (inl e, self')
    | (inr a, self') => k a self'
    end.

Definition lift {A} (r : result A) : Proc A := fun self => (r, self).

(** A host operation acts on the world and leaves [self.env] alone. *)
Definition on_world {A} (f : world -> result A * world) : Proc A :=
  fun self =>
    let '(r, w) := f (host_world self) in
    (r, {| env := env self; host_world := w |}).

(** [try: body except cls: handler]. *)
Definition try_except {A} (body : Proc A) (cls : pyclass) (handler : Proc A) : Proc A :=
  fun self =>
    match body self with
    | (inl e, self') => if isinstance e cls then handler self' else (inl e, self')
    | (inr a, self') => (inr a, self')
    end.

(** [self.env[key]]. *)
Definition env_getitem (key : string) : Proc string :=
  fun self =>
    match env self !! key with
    | Some v => (inr v, self)
    | None => (inl (Raise KeyError key), self)
    end.

(** [self.env[key] = value]. *)
Definition env_setitem (key value : string) : Proc unit :=
  fun self => (inr tt, {| env := <[key := value]> (env self); host_world := host_world self |}).

(** [self.env.get(key, dflt)]. *)
Definition env_get (key dflt : string) : Proc string :=
  fun self => (inr (default dflt (env self !! key)), self).

Definition self_output (msg : string) : Proc unit :=
  on_world (fun w => (inr tt, output msg w)).

End Processor.

Arguments processor : clear implicits.
Arguments Proc : clear implicits.

Notation "'do' x <- c ; k" := (bind c (fun x => k))
  (at level 10, x name, c at level 100, k at level 200).
Notation "'run' c ; k" := (bind c (fun _ => k))
  (at level 10, c at level 100, k at level 200).

Section Resolver.
Context {H : Host}.

(** The key of the scan, [lambda x: int(x["buildNumber"])]. *)
Definition build_key (x : json) : result Z :=
  let? b := getitem x "buildNumber" in py_int b.

(** Lines 89 to 102 of [get_g2m_info]: from the decoded feed to the URL
    and the build number. *)
Definition latest_release (jsondata : json) : result (string * string) :=
  let? builds := getitem jsondata "activeBuilds" in
  let? items := iterate builds in
  let? max_build := py_max build_key items in
  let? g2m_url := dict_get max_build "macDownloadUrl" in
  if negb (truthy g2m_url) then inl no_download_url
  else
    let? url_parts := split_method g2m_url "/" in
    let? url_parts := set_last url_parts "GoToMeeting.dmg" in
    let g2m_url := str_join "/" url_parts in
    let? build_number := getitem max_build "buildNumber" in
    let g2m_build := py_str repr_other build_number in
    inr (g2m_url, g2m_build).

(** Lines 79 to 87: the feed is read as JSON, and as gzipped JSON when
    that raises a [ValueError]. *)
Definition load_feed (meta_file : string) : Proc H json :=
  try_except
    (do data <- on_world (fun w => (read_binary meta_file w, w));
     do jsondata <- lift (json_loads data);
     run self_output "Encoding: json";
     ret jsondata)
    ValueError
    (do data <- on_world (fun w => (read_binary meta_file w, w));
     do plain <- lift (gzip_decompress data);
     do jsondata <- lift (json_loads plain);
     run self_output "Encoding: gzip";
     ret jsondata).

(** Lines 67 to 77: the download directory is prepared, an [OSError] of
    [os.makedirs] is dropped, and the feed is downloaded to a file. *)
Definition download_feed (base_url : string) : Proc H string :=
  do cache_dir <- env_getitem "RECIPE_CACHE_DIR";
  let download_dir := path_join cache_dir "downloads" in
  let meta_path := path_join download_dir "meta" in
  run try_except (on_world (os_makedirs download_dir)) OSError (ret tt);
  on_world (download_to_file base_url meta_path).

Definition get_g2m_info (base_url : string) : Proc H (string * string) :=
  do meta_file <- download_feed base_url;
  do jsondata <- load_feed meta_file;
  lift (latest_release jsondata).

Definition main (g : module_globals) : Proc H unit :=
  do base_url <- env_get "base_url" (BASE_URL g);
  do info <- get_g2m_info base_url;
  let '(g2m_url, g2m_build) := info in
  run env_setitem "url" g2m_url;
  do url <- env_getitem "url";
  run self_output ("Found URL: " ++ url);
  run env_setitem "build" g2m_build;
  do build <- env_getitem "build";
  self_output ("Build number: " ++ build).

End Resolver.

(** ** Vocabulary of the statements *)

Fixpoint contains (c : ascii) (s : string) : bool :=
  match s with
  | EmptyString => false
  | String c' s' => Ascii.eqb c' c || contains c s'
  end.

(** The build number of a build entry of the feed: the [buildNumber] of a
    dict, when it is a string that [int] reads. *)
Definition build_number (entry : json) : option Z :=
  match getitem entry "buildNumber" with
  | inr (JStr s) => int_of_str s
  | _ => None
  end.

(** The entry field [macDownloadUrl] as the document has it. *)
Definition mac_download_url (entry : json) : option json :=
  match entry with
  | JDict d => dict_lookup "macDownloadUrl" d
  | _ => None
  end.

(** The URL with its last path segment replaced by [GoToMeeting.dmg]. *)
Definition normalized (url : string) : string :=
  str_join "/" (removelast (str_split "/" url) ++ ["GoToMeeting.dmg"]).

(** A dotted quad of decimal numbers below 256. *)
Definition is_ipv4_literal (s : string) : bool :=
  let parts := str_split "." s in
  (List.length parts =? 4)%nat
  && forallb (fun part =>
       negb (String.eqb part "")
       && forallb (fun c => match digit_value c with Some _ => true | None => false end)
                  (list_ascii_of_string part)
       && match int_of_str part with Some n => n <? 256 | None => false end) parts.

Section Stages.
Context {H : Host}.

(** The feed was downloaded and decoded to [jsondata], which took the
    processor from [self] to [self']. *)
Definition feed_decoded (base_url : string) (self : processor H) (jsondata : json)
    (self' : processor H) : Prop :=
  exists meta_file self1,
    download_feed base_url self = (inr meta_file, self1)
    /\ load_feed meta_file self1 = (inr jsondata, self').

(** The feed was downloaded to a file that holds [data]. *)
Definition feed_downloaded (base_url : string) (self : processor H) (data : list byte)
    (self1 : processor H) : Prop :=
  exists meta_file,
    download_feed base_url self = (inr meta_file, self1)
    /\ read_binary meta_file (host_world self1) = inr data.

(** The processor on another world. *)
Definition with_world (self : processor H) (w : world) : processor H :=
  {| env := env self; host_world := w |}.

(** A computation that never assigns to [self.env]. *)
Definition keeps_env {A} (c : Proc H A) : Prop :=
  forall self, env (snd (c self)) = env self.

End Stages.

(** ** A reference host

    An in-memory host on which the processor can be run: a set of
    directories, a map of files, the documents the network serves, and the
    lines reported so far. Its decoders cover a fragment of what Python's
    do: [json_loads] reads JSON whose numbers are integers and whose
    strings stay below code point 256 and use no [\u] escape; [gunzip]
    reads gzip members without optional header fields whose DEFLATE blocks
    are stored blocks. Whatever lies outside the fragment is rejected. *)
Module RefHost.

Record mem_world : Type := {
  dirs : gset string;
  files : gmap string (list byte);
  remote : gmap string (list byte);
  log : list string
}.

(** [os.makedirs(d)]: an existing directory is a [FileExistsError]. *)
Definition makedirs (d : string) (w : mem_world) : result unit * mem_world :=
  if bool_decide (d ∈ dirs w)
  then (inl (Raise FileExistsError d), w)
  else (inr tt, {| dirs := {[d]} ∪ dirs w; files := files w;
                   remote := remote w; log := log w |}).

(** The document behind [url] is written to [path], which is returned;
    an unknown URL is the transport error of [URLGetter]. *)
Definition download (url path : string) (w : mem_world) : result string * mem_world :=
  match remote w !! url with
  | Some body =>
      (inr path, {| dirs := dirs w; files := <[path := body]> (files w);
                    remote := remote w; log := log w |})
  | None => (inl (Raise ProcessorError "curl failed"), w)
  end.

Definition read (path : string) (w : mem_world) : result (list byte) :=
  match files w !! path with
  | Some body => inr body
  | None => inl (Raise FileNotFoundError path)
  end.

Definition report (msg : string) (w : mem_world) : mem_world :=
  {| dirs := dirs w; files := files w; remote := remote w; log := log w ++ [msg] |}.

(** *** JSON *)

Definition dquote : ascii := ascii_of_nat 34.
Definition backslash : ascii := ascii_of_nat 92.

Definition json_error (what : string) : exn := Raise JSONDecodeError what.

Fixpoint skip_ws (s : string) : string :=
  match s with
  | String c r =>
      let n := nat_of_ascii c in
      if (n =? 32)%nat || (n =? 9)%nat || (n =? 10)%nat || (n =? 13)%nat
      then skip_ws r else s
  | EmptyString => s
  end.

Fixpoint dict_set (k : string) (v : json) (d : list (string * json)) : list (string * json) :=
  match d with
  | [] => [(k, v)]
  | (k', v') :: d' => if String.eqb k k' then (k', v) :: d' else (k', v') :: dict_set k v d'
  end.

(** The characters of a string literal after its opening quote. *)
Fixpoint string_body (s : string) : option (string * string) :=
  match s with
  | EmptyString => None
  | String c r =>
      let n := nat_of_ascii c in
      if Ascii.eqb c dquote then Some (EmptyString, r)
      else if Ascii.eqb c backslash then
        match r with
        | String e r' =>
            let unescaped :=
              if Ascii.eqb e dquote then Some dquote
              else if Ascii.eqb e backslash then Some backslash
              else match e with
                   | "/" => Some "/"
                   | "b" => Some (ascii_of_nat 8)
                   | "f" => Some (ascii_of_nat 12)
                   | "n" => Some (ascii_of_nat 10)
                   | "r" => Some (ascii_of_nat 13)
                   | "t" => Some (ascii_of_nat 9)
                   | _ => None
                   end%char in
            match unescaped with
            | Some c' =>
                match string_body r' with
                | Some (body, rest) => Some (String c' body, rest)
                | None => None
                end
            | None => None
            end
        | EmptyString => None
        end
      else if (n <? 32)%nat then None
      else if (n <? 128)%nat then
        match string_body r with
        | Some (body, rest) => Some (String c body, rest)
        | None => None
        end
      else if (n =? 194)%nat || (n =? 195)%nat then
        (* UTF-8 for the code points 128 to 255 *)
        match r with
        | String c2 r' =>
            let n2 := nat_of_ascii c2 in
            if (128 <=? n2)%nat && (n2 <? 192)%nat then
              match string_body r' with
              | Some (body, rest) =>
                  Some (String (ascii_of_nat (if (n =? 194)%nat then n2 else n2 + 64)) body, rest)
              | None => None
              end
            else None
        | EmptyString => None
        end
      else None
  end.

Fixpoint digits_prefix (s : string) : string * string :=
  match s with
  | String c r =>
      match digit_value c with
      | Some _ => let '(ds, rest) := digits_prefix r in (String c ds, rest)
      | None => (EmptyString, s)
      end
  | EmptyString => (EmptyString, s)
  end.

(** An integer literal: an optional minus, then [0] or digits that do not
    start with [0]; a fraction or an exponent is outside the fragment. *)
Definition number (s : string) : option (json * string) :=
  let '(neg, s1) := match s with String "-" r => (true, r) | _ => (false, s) end in
  let '(ds, rest) := digits_prefix s1 in
  match ds with
  | EmptyString => None
  | String d more =>
      if Ascii.eqb d "0" && negb (String.eqb more "") then None
      else
        match rest with
        | String "." _ | String "e" _ | String "E" _ => None
        | _ =>
            match int_of_str ds with
            | Some n => Some (JInt (if neg then - n else n), rest)
            | None => None
            end
        end
  end.

Definition literal (word : string) (v : json) (s : string) : option (json * string) :=
  if String.prefix word s
  then Some (v, substring (String.length word) (String.length s - String.length word) s)
  else None.

(** Recursive descent; [fuel] bounds the number of nested calls. *)
Fixpoint value (fuel : nat) (s : string) : option (json * string) :=
  match fuel with
  | O => None
  | S fuel =>
      match skip_ws s with
      | EmptyString => None
      | String c r as s' =>
          if Ascii.eqb c dquote then
            match string_body r with
            | Some (str, rest) => Some (JStr str, rest)
            | None => None
            end
          else match c with
               | "n" => literal "null" JNull s'
               | "t" => literal "true" (JBool true) s'
               | "f" => literal "false" (JBool false) s'
               | "[" =>
                   match skip_ws r with
                   | String "]" rest => Some (JList [], rest)
                   | _ =>
                       match elements fuel r with
                       | Some (l, rest) => Some (JList l, rest)
                       | None => None
                       end
                   end
               | "{" =>
                   match skip_ws r with
                   | String "}" rest => Some (JDict [], rest)
                   | _ =>
                       match members fuel [] r with
                       | Some (d, rest) => Some (JDict d, rest)
                       | None => None
                       end
                   end
               | _ => number s'
               end%char
      end
  end
with elements (fuel : nat) (s : string) : option (list json * string) :=
  match fuel with
  | O => None
  | S fuel =>
      match value fuel s with
      | Some (v, rest) =>
          match skip_ws rest with
          | String "]" rest' => Some ([v], rest')
          | String "," rest' =>
              match elements fuel rest' with
              | Some (l, rest'') => Some (v :: l, rest'')
              | None => None
              end
          | _ => None
          end
      | None => None
      end
  end
with members (fuel : nat) (acc : list (string * json)) (s : string)
    : option (list (string * json) * string) :=
  match fuel with
  | O => None
  | S fuel =>
      match skip_ws s with
      | String c r =>
          if Ascii.eqb c dquote then
            match string_body r with
            | Some (k, rest) =>
                match skip_ws rest with
                | String ":" rest' =>
                    match value fuel rest' with
                    | Some (v, rest'') =>
                        let acc' := dict_set k v acc in
                        match skip_ws rest'' with
                        | String "}" rest3 => Some (acc', rest3)
                        | String "," rest3 => members fuel acc' rest3
                        | _ => None
                        end
                    | None => None
                    end
                | _ => None
                end
            | None => None
            end
          else None
      | EmptyString => None
      end
  end.

Definition loads (data : list byte) : result json :=
  let s := string_of_list_byte data in
  match value (2 * String.length s + 2) s with
  | Some (v, rest) =>
      match skip_ws rest with
      | EmptyString => inr v
      | String _ _ => inl (json_error "Extra data")
      end
  | None => inl (json_error "Expecting value")
  end.

(** *** gzip *)

Definition byte_val (b : byte) : Z := Z.of_N (Byte.to_N b).

Definition crc32_step (c : Z) : Z :=
  if Z.testbit c 0 then Z.lxor (Z.shiftr c 1) 3988292384 else Z.shiftr c 1.

Definition crc32_update (crc : Z) (b : byte) : Z :=
  Nat.iter 8 crc32_step (Z.lxor crc (byte_val b)).

Definition crc32 (data : list byte) : Z :=
  Z.lxor (fold_left crc32_update data 4294967295) 4294967295.

(** Little-endian value of the first [n] bytes, and the remaining bytes. *)
Fixpoint le_take (n : nat) (data : list byte) : option (Z * list byte) :=
  match n with
  | O => Some (0, data)
  | S n' =>
      match data with
      | [] => None
      | b :: rest =>
          match le_take n' rest with
          | Some (v, rest') => Some (byte_val b + 256 * v, rest')
          | None => None
          end
      end
  end.

Definition truncated : exn :=
  Raise EOFError "Compressed file ended before the end-of-stream marker was reached".

(** The stored blocks of a DEFLATE stream; [fuel] bounds their number. *)
Fixpoint stored_blocks (fuel : nat) (data : list byte) : result (list byte * list byte) :=
  match fuel with
  | O => inl truncated
  | S fuel =>
      match data with
      | [] => inl truncated
      | hd :: rest =>
          let h := byte_val hd in
          if negb (Z.land (Z.shiftr h 1) 3 =? 0)
          then inl (Raise ZlibError "compressed block")
          else
            match le_take 2 rest with
            | None => inl truncated
            | Some (len, rest1) =>
                match le_take 2 rest1 with
                | None => inl truncated
                | Some (nlen, rest2) =>
                    if negb (len + nlen =? 65535)
                    then inl (Raise ZlibError "invalid stored block lengths")
                    else
                      let n := Z.to_nat len in
                      if (List.length rest2 <? n)%nat then inl truncated
                      else
                        let block := firstn n rest2 in
                        let after := skipn n rest2 in
                        if Z.testbit h 0 then inr (block, after)
                        else
                          let? more := stored_blocks fuel after in
                          inr ((block ++ fst more)%list, snd more)
                end
            end
      end
  end.

(** One member: the ten-byte header, the blocks, the CRC-32 and the length. *)
Definition member (data : list byte) : result (list byte * list byte) :=
  match data with
  | m1 :: m2 :: rest =>
      if negb ((byte_val m1 =? 31) && (byte_val m2 =? 139))
      then inl (Raise BadGzipFile "Not a gzipped file")
      else
        match rest with
        | cm :: flg :: _ :: _ :: _ :: _ :: _ :: _ :: body =>
            if negb (byte_val cm =? 8) then inl (Raise BadGzipFile "Unknown compression method")
            else if negb (byte_val flg =? 0) then inl (Raise ZlibError "optional header fields")
            else
              let? r := stored_blocks (S (List.length body)) body in
              let '(plain, trailer) := r in
              match le_take 4 trailer with
              | None => inl truncated
              | Some (crc, t1) =>
                  match le_take 4 t1 with
                  | None => inl truncated
                  | Some (isize, after) =>
                      if negb (crc =? crc32 plain) then inl (Raise BadGzipFile "CRC check failed")
                      else if negb (isize =? Z.of_nat (List.length plain) mod 4294967296)
                      then inl (Raise BadGzipFile "Incorrect length of data produced")
                      else inr (plain, after)
                  end
              end
        | _ => inl truncated
        end
  | [_] => inl truncated
  | [] => inl truncated
  end.

(** The members of a file, one after the other; zero bytes may pad the
    end, and an empty file decompresses to nothing. *)
Fixpoint members_of (fuel : nat) (data : list byte) : result (list byte) :=
  match fuel with
  | O => inr []
  | S fuel =>
      if forallb (fun b => byte_val b =? 0) data then inr []
      else
        let? r := member data in
        let? more := members_of fuel (snd r) in
        inr (fst r ++ more)%list
  end.

Definition gunzip (data : list byte) : result (list byte) :=
  match data with
  | [] => inr []
  | _ => let? r := member data in
         let? more := members_of (List.length data) (snd r) in
         inr (fst r ++ more)%list
  end.

Fixpoint le_bytes (n : nat) (v : Z) : list byte :=
  match n with
  | O => []
  | S n' =>
      default Byte.x00 (Byte.of_N (Z.to_N (v mod 256))) :: le_bytes n' (v / 256)
  end.

(** A member that holds [data] in one stored block (fewer than 65536 bytes). *)
Definition gzip_stored (data : list byte) : list byte :=
  let len := Z.of_nat (List.length data) in
  (le_bytes 10 559903 (* 1f 8b 08, then zeros *)
     ++ le_bytes 1 1 ++ le_bytes 2 len ++ le_bytes 2 (65535 - len) ++ data
     ++ le_bytes 4 (crc32 data) ++ le_bytes 4 len)%list.

#[export] Instance host : Host := {|
  world := mem_world;
  os_makedirs := makedirs;
  download_to_file := download;
  read_binary := read;
  gzip_decompress := gunzip;
  json_loads := loads;
  output := report;
  repr_other := fun _ => "?"
|}.

(** Versions as dotted integers, compared item by item, a missing item
    counting as zero. *)
Fixpoint zeros_lt (b : list Z) : bool :=
  match b with
  | [] => false
  | y :: b' => (0 <? y) || ((0 =? y) && zeros_lt b')
  end.

Fixpoint items_lt (a b : list Z) : bool :=
  match a, b with
  | [], _ => zeros_lt b
  | x :: a', [] => (x <? 0) || ((x =? 0) && items_lt a' [])
  | x :: a', y :: b' => (x <? y) || ((x =? y) && items_lt a' b')
  end.

Definition version_items (v : string) : list Z :=
  map (fun part => default 0 (int_of_str part)) (str_split "." v).

Definition version_lt (a b : string) : bool := items_lt (version_items a) (version_items b).

End RefHost.

(** JSON text is written with ['] where the document has a double quote. *)
Definition quoted (s : string) : list byte :=
  map (fun c => if Ascii.eqb c "'" then byte_of_ascii RefHost.dquote else byte_of_ascii c)
      (list_ascii_of_string s).

(** ** Worked examples on the reference host *)

Module Examples.

Definition feed_url : string := "https://builds.cdn.getgo.com/g2mupdater/live/config.json".

(** A processor whose cache directory is [/cache], on a machine without
    directories or files, where the feed URL serves [body]. *)
Definition serving (body : list byte) : processor RefHost.host :=
  Build_processor (H := RefHost.host) {[ "RECIPE_CACHE_DIR" := "/cache" ]}
    {| RefHost.dirs := ∅; RefHost.files := ∅;
       RefHost.remote := {[ feed_url := body ]}; RefHost.log := [] |}.

(** The same, the download directory being there already. *)
Definition serving_again (body : list byte) : processor RefHost.host :=
  Build_processor (H := RefHost.host) {[ "RECIPE_CACHE_DIR" := "/cache" ]}
    {| RefHost.dirs := {[ "/cache/downloads" ]}; RefHost.files := ∅;
       RefHost.remote := {[ feed_url := body ]}; RefHost.log := [] |}.

Definition meta_file : string := "/cache/downloads/meta".

(** The processor after the download of [body], and after its decoding. *)
Definition downloaded (body : list byte) : processor RefHost.host :=
  snd (download_feed feed_url (serving body)).

Definition decoded (body : list byte) : processor RefHost.host :=
  snd (load_feed meta_file (downloaded body)).

Definition entry (number : string) (url : string) : json :=
  JDict [("buildNumber", JStr number); ("macDownloadUrl", JStr url)].

Definition feed_of (entries : list json) : json := JDict [("activeBuilds", JList entries)].

(** The document of the end-to-end example, decoded and as text. *)
Definition two_builds : list json :=
  [entry "1000" "https://cdn.example.com/1000/OldApp.dmg";
   entry "1050" "https://cdn.example.com/1050/NewApp.dmg"].

Definition two_builds_text : list byte :=
  quoted ("{'activeBuilds':[{'buildNumber':'1000','macDownloadUrl':'https://cdn.example.com/1000/OldApp.dmg'},"
          ++ "{'buildNumber':'1050','macDownloadUrl':'https://cdn.example.com/1050/NewApp.dmg'}]}").

(** The newest build has no URL, an older one has. *)
Definition newest_without_url : list json :=
  [entry "1000" "https://cdn.example.com/1000/OldApp.dmg";
   JDict [("buildNumber", JStr "1050")]].

Definition newest_without_url_text : list byte :=
  quoted ("{'activeBuilds':[{'buildNumber':'1000','macDownloadUrl':'https://cdn.example.com/1000/OldApp.dmg'},"
          ++ "{'buildNumber':'1050'}]}").

(** An older entry whose build number is no integer. *)
Definition with_bad_number : list json :=
  [entry "1050" "https://cdn.example.com/1050/NewApp.dmg";
   entry "1.0-beta" "https://cdn.example.com/beta/App.dmg"].

Definition with_bad_number_text : list byte :=
  quoted ("{'activeBuilds':[{'buildNumber':'1050','macDownloadUrl':'https://cdn.example.com/1050/NewApp.dmg'},"
          ++ "{'buildNumber':'1.0-beta','macDownloadUrl':'https://cdn.example.com/beta/App.dmg'}]}").

Definition no_builds_text : list byte := quoted "{'activeBuilds':[]}".

(** Bytes that are neither JSON nor gzip, and a gzip file of them. *)
Definition garbage : list byte := quoted "<html>Service Unavailable</html>".
Definition garbage_gz : list byte := RefHost.gzip_stored garbage.

(** A Mac on 10.12.6 whose resolver answers with the canonical name of
    the CDN host, an alias and one address. *)
Definition sierra : platform :=
  {| is_mac := true;
     mac_ver := "10.12.6";
     loose_version_lt := RefHost.version_lt;
     gethostbyname_ex := fun _ =>
       inr ("e4242.dscb.akamaiedge.net", ["builds.cdn.getgo.com"], ["203.0.113.7"]) |}.

(** The module names on a machine that needs no workaround. *)
Definition plain_globals : module_globals :=
  {| HOSTNAME := "builds.cdn.getgo.com"; BASE_URL := feed_url |}.

End Examples.

(** ** More vocabulary *)

From Stdlib Require DecimalPos.

(** [m] is the first of the entries whose key is the greatest: the keys
    before it are smaller, the keys after it are not greater. *)
Definition newest_first (entries : list json) (m : json) (k : Z) : Prop :=
  exists pre post,
    entries = (pre ++ m :: post)%list
    /\ build_key m = inr k
    /\ Forall (fun e => exists k', build_key e = inr k' /\ k' < k) pre
    /\ Forall (fun e => exists k', build_key e = inr k' /\ k' <= k) post.

(** The number a decimal numeral denotes, most significant digit first,
    on top of the value [acc] of the digits before it. *)
Fixpoint uint_value (acc : Z) (d : Decimal.uint) : Z :=
  match d with
  | Decimal.Nil => acc
  | Decimal.D0 l => uint_value (10 * acc + 0) l
  | Decimal.D1 l => uint_value (10 * acc + 1) l
  | Decimal.D2 l => uint_value (10 * acc + 2) l
  | Decimal.D3 l => uint_value (10 * acc + 3) l
  | Decimal.D4 l => uint_value (10 * acc + 4) l
  | Decimal.D5 l => uint_value (10 * acc + 5) l
  | Decimal.D6 l => uint_value (10 * acc + 6) l
  | Decimal.D7 l => uint_value (10 * acc + 7) l
  | Decimal.D8 l => uint_value (10 * acc + 8) l
  | Decimal.D9 l => uint_value (10 * acc + 9) l
  end.

(** The names of the output variables the class declares, lines 58 to 61. *)
Definition output_variables : list string := ["url"; "build"].

(** The classes of the exceptions lines 89 to 102 can raise. *)
Definition selection_errors : list pyclass :=
  [KeyError; TypeError; ValueError; OverflowError; AttributeError; ProcessorError].

Section MoreStages.
Context {H : Host}.

(** What [get_g2m_info] does once the download directory was dealt with. *)
Definition after_makedirs (base_url cache_dir : string) : Proc H (string * string) :=
  do meta_file <- on_world (download_to_file base_url
                      (path_join (path_join cache_dir "downloads") "meta"));
  do jsondata <- load_feed meta_file;
  lift (latest_release jsondata).

(** Two environments that hold the same cache directory. *)
Definition same_cache_dir (env1 env2 : gmap string string) : Prop :=
  env1 !! "RECIPE_CACHE_DIR" = env2 !! "RECIPE_CACHE_DIR".

(** A computation that sees no more of [self.env] than the cache
    directory: on such environments and the same world it gives the same
    result and reaches the same world, and it leaves each environment as
    it is. *)
Definition env_blind {A} (c : Proc H A) : Prop :=
  forall env1 env2 w, same_cache_dir env1 env2 ->
    exists r w',
      c {| env := env1; host_world := w |} = (r, {| env := env1; host_world := w' |})
      /\ c {| env := env2; host_world := w |} = (r, {| env := env2; host_world := w' |}).

End MoreStages.

(** The reference host with another [os.makedirs] and another
    [download_to_file]. *)
Definition host_variant
    (mk : string -> RefHost.mem_world -> result unit * RefHost.mem_world)
    (dl : string -> string -> RefHost.mem_world -> result string * RefHost.mem_world)
    : Host :=
  {| world := RefHost.mem_world;
     os_makedirs := mk;
     download_to_file := dl;
     read_binary := RefHost.read;
     gzip_decompress := RefHost.gunzip;
     json_loads := RefHost.loads;
     output := RefHost.report;
     repr_other := fun _ => "?" |}.

Module MoreExamples.

(** Two entries share the greatest build number. *)
Definition tied_builds : list json :=
  [Examples.entry "1000" "https://cdn.example.com/1000/Old.dmg";
   Examples.entry "1050" "https://cdn.example.com/a/First.dmg";
   Examples.entry "01050" "https://cdn.example.com/b/Second.dmg"].

Definition tied_builds_text : list byte :=
  quoted ("{'activeBuilds':[{'buildNumber':'1000','macDownloadUrl':'https://cdn.example.com/1000/Old.dmg'},"
          ++ "{'buildNumber':'1050','macDownloadUrl':'https://cdn.example.com/a/First.dmg'},"
          ++ "{'buildNumber':'01050','macDownloadUrl':'https://cdn.example.com/b/Second.dmg'}]}").

(** The second entry has no build number, the third one that [int] rejects. *)
Definition two_bad_entries : list json :=
  [Examples.entry "1000" "https://cdn.example.com/1000/Old.dmg";
   JDict [("macDownloadUrl", JStr "https://cdn.example.com/x/App.dmg")];
   Examples.entry "beta" "https://cdn.example.com/beta/App.dmg"].

Definition two_bad_entries_text : list byte :=
  quoted ("{'activeBuilds':[{'buildNumber':'1000','macDownloadUrl':'https://cdn.example.com/1000/Old.dmg'},"
          ++ "{'macDownloadUrl':'https://cdn.example.com/x/App.dmg'},"
          ++ "{'buildNumber':'beta','macDownloadUrl':'https://cdn.example.com/beta/App.dmg'}]}").

(** The newest build has a number where its URL should be. *)
Definition url_is_a_number : list json :=
  [JDict [("buildNumber", JStr "1050"); ("macDownloadUrl", JInt 404)]].

Definition url_is_a_number_text : list byte :=
  quoted "{'activeBuilds':[{'buildNumber':'1050','macDownloadUrl':404}]}".

(** Build numbers written as JSON integers. *)
Definition integer_builds : list json :=
  [JDict [("buildNumber", JInt 1049);
          ("macDownloadUrl", JStr "https://cdn.example.com/1049/Old.dmg")];
   JDict [("buildNumber", JInt 1050);
          ("macDownloadUrl", JStr "https://cdn.example.com/1050/New.dmg")]].

Definition integer_builds_text : list byte :=
  quoted ("{'activeBuilds':[{'buildNumber':1049,'macDownloadUrl':'https://cdn.example.com/1049/Old.dmg'},"
          ++ "{'buildNumber':1050,'macDownloadUrl':'https://cdn.example.com/1050/New.dmg'}]}").

(** A processor without a cache directory. *)
Definition without_cache_dir : processor RefHost.host :=
  Build_processor (H := RefHost.host) ∅
    {| RefHost.dirs := ∅; RefHost.files := ∅;
       RefHost.remote := {[ Examples.feed_url := Examples.two_builds_text ]};
       RefHost.log := [] |}.

(** A host that may not create directories, and one whose download
    writes no file. *)
Definition denied_host : Host :=
  host_variant (fun d w => (inl (Raise PermissionError d), w)) RefHost.download.

Definition forgetful_host : Host :=
  host_variant RefHost.makedirs (fun url path w => (inr path, w)).

Definition on_host (h : Host) (w : RefHost.mem_world -> @world h) (body : list byte)
    : processor h :=
  Build_processor (H := h) {[ "RECIPE_CACHE_DIR" := "/cache" ]}
    (w {| RefHost.dirs := ∅; RefHost.files := ∅;
          RefHost.remote := {[ Examples.feed_url := body ]}; RefHost.log := [] |}).

Definition denied : processor denied_host :=
  on_host denied_host (fun w => w) Examples.two_builds_text.

Definition forgetful : processor forgetful_host :=
  on_host forgetful_host (fun w => w) Examples.two_builds_text.

(** The processor of the examples with a stale [url] in its environment. *)
Definition with_stale_url : gmap string string :=
  {[ "RECIPE_CACHE_DIR" := "/cache"; "url" := "https://cdn.example.com/stale.dmg" ]}.

End MoreExamples.

(** Membership in a list written out, one goal per item. *)
Ltac each_entry Hin :=
  repeat (apply elem_of_cons in Hin as [-> | Hin]);
  [.. | by apply elem_of_nil in Hin].

(** * Properties *)

(** ** Splitting and joining *)

Lemma append_nil_l (s : string) : "" ++ s = s.
Proof. reflexivity. Qed.

Lemma append_cons (c : ascii) (s t : string) : String c s ++ t = String c (s ++ t).
Proof. reflexivity. Qed.

Lemma append_nil_r (s : string) : s ++ "" = s.
Proof. induction s as [|c s IH]; [done|]. by rewrite append_cons, IH. Qed.

Section Strings.
Variable sep : ascii.

Lemma str_split_not_nil (s : string) : str_split sep s <> [].
Proof.
  destruct s as [|c s]; simpl; [discriminate|].
  destruct (Ascii.eqb c sep); [discriminate|].
  destruct (str_split sep s); discriminate.
Qed.

Lemma str_split_parts (s : string) :
  Forall (fun part => contains sep part = false) (str_split sep s).
Proof.
  induction s as [|c s IH]; simpl.
  - by constructor.
  - destruct (Ascii.eqb c sep) eqn:Hc.
    + by constructor.
    + destruct (str_split sep s) as [|p ps]; inversion IH; subst;
        constructor; simpl; rewrite ?Hc; auto.
Qed.

(** A prefix without the separator stays in the first part. *)
Lemma str_split_app (p r : string) :
  contains sep p = false ->
  str_split sep (p ++ r) =
    match str_split sep r with
    | [] => [p]
    | q :: qs => (p ++ q) :: qs
    end.
Proof.
  pose proof (str_split_not_nil r) as Hr.
  induction p as [|c p IH]; simpl; intros Hp.
  - rewrite ?append_nil_l. by destruct (str_split sep r).
  - apply orb_false_iff in Hp as [Hc Hp].
    rewrite ?append_cons. simpl. rewrite Hc, (IH Hp).
    by destruct (str_split sep r).
Qed.

Lemma str_split_sep (s : string) :
  str_split sep (String sep s) = EmptyString :: str_split sep s.
Proof. simpl. by rewrite Ascii.eqb_refl. Qed.

Lemma str_join_cons (p q : string) (qs : list string) :
  str_join (String sep EmptyString) (p :: q :: qs)
  = p ++ String sep (str_join (String sep EmptyString) (q :: qs)).
Proof. reflexivity. Qed.

Lemma str_split_join (parts : list string) :
  parts <> [] ->
  Forall (fun part => contains sep part = false) parts ->
  str_split sep (str_join (String sep EmptyString) parts) = parts.
Proof.
  induction parts as [|p ps IH]; [done|]. intros _ Hall.
  inversion Hall as [|? ? Hp Hps]; subst.
  destruct ps as [|q qs].
  - simpl. rewrite <- (append_nil_r p) at 1.
    rewrite (str_split_app p "" Hp). simpl. by rewrite append_nil_r.
  - rewrite str_join_cons, (str_split_app _ _ Hp).
    rewrite str_split_sep, IH by done. by rewrite append_nil_r.
Qed.

Lemma str_join_split (s : string) :
  str_join (String sep EmptyString) (str_split sep s) = s.
Proof.
  induction s as [|c s IH]; [done|]. simpl str_split.
  pose proof (str_split_not_nil s) as Hs.
  destruct (Ascii.eqb c sep) eqn:Hc.
  - apply Ascii.eqb_eq in Hc as ->.
    destruct (str_split sep s) as [|q qs]; [done|].
    by rewrite str_join_cons, append_nil_l, IH.
  - destruct (str_split sep s) as [|q qs]; [done|].
    destruct qs as [|q' qs'].
    + simpl in *. by rewrite IH.
    + rewrite str_join_cons in *. by rewrite append_cons, IH.
Qed.

End Strings.

Lemma set_last_removelast (parts : list string) (x : string) :
  parts <> [] -> set_last parts x = inr (removelast parts ++ [x])%list.
Proof.
  induction parts as [|p ps IH]; [done|]. intros _.
  destruct ps as [|q qs]; [done|].
  change (set_last (p :: q :: qs) x)
    with (let? ps' := set_last (q :: qs) x in inr (p :: ps')).
  rewrite IH by done. done.
Qed.

(** The segments of a normalized URL: those of the URL, the last replaced. *)
Lemma str_split_normalized (url : string) :
  str_split "/" (normalized url) = (removelast (str_split "/" url) ++ ["GoToMeeting.dmg"])%list.
Proof.
  unfold normalized. apply str_split_join.
  - by destruct (removelast (str_split "/" url)).
  - apply Forall_app. split.
    + pose proof (str_split_parts "/" url) as Hall.
      induction (str_split "/" url) as [|p ps IH]; [constructor|].
      inversion Hall; subst. destruct ps; [constructor|].
      simpl. constructor; auto.
    + by repeat constructor.
Qed.

(** ** The scan for the maximum *)

Section MaxScan.
Variable key : json -> result Z.

Lemma max_scan_ok (items : list json) : forall best bk,
  Forall (fun x => exists k, key x = inr k) items ->
  exists m km,
    max_scan key best bk items = inr m
    /\ (m = best /\ km = bk \/ m ∈ items /\ key m = inr km)
    /\ bk <= km
    /\ Forall (fun x => exists k, key x = inr k /\ k <= km) items.
Proof.
  induction items as [|x rest IH]; intros best bk Hall.
  - exists best, bk. repeat split; [by left | lia | constructor].
  - inversion Hall as [|? ? [k Hk] Hrest]; subst. simpl. rewrite Hk. simpl.
    destruct (bk <? k) eqn:Hlt.
    + apply Z.ltb_lt in Hlt.
      destruct (IH x k Hrest) as (m & km & Hm & Hwhich & Hle & Hbound).
      exists m, km. repeat split; [done | | lia | ].
      * right. destruct Hwhich as [[-> ->]|[Hin Hkm]].
        -- split; [left | done].
        -- split; [by right | done].
      * constructor; [exists k; split; [done | lia] | done].
    + apply Z.ltb_ge in Hlt.
      destruct (IH best bk Hrest) as (m & km & Hm & Hwhich & Hle & Hbound).
      exists m, km. repeat split; [done | | lia | ].
      * destruct Hwhich as [[-> ->]|[Hin Hkm]]; [by left | right].
        split; [by right | done].
      * constructor; [exists k; split; [done | lia] | done].
Qed.

(** When every key is computed, [max] returns an item whose key bounds
    all the keys. *)
Lemma py_max_ok (items : list json) :
  items <> [] ->
  Forall (fun x => exists k, key x = inr k) items ->
  exists m km,
    py_max key items = inr m /\ m ∈ items /\ key m = inr km
    /\ Forall (fun x => exists k, key x = inr k /\ k <= km) items.
Proof.
  destruct items as [|x rest]; [done|]. intros _ Hall.
  inversion Hall as [|? ? [k Hk] Hrest]; subst. simpl. rewrite Hk. simpl.
  destruct (max_scan_ok rest x k Hrest) as (m & km & Hm & Hwhich & Hle & Hbound).
  exists m, km. repeat split; [done | | | ].
  - destruct Hwhich as [[-> ->]|[Hin _]]; [left | by right].
  - by destruct Hwhich as [[-> ->]|[_ Hkm]].
  - constructor; [by exists k | done].
Qed.

Lemma max_scan_key_error (items : list json) : forall best bk,
  Exists (fun x => exists e, key x = inl e) items ->
  exists x e, x ∈ items /\ key x = inl e /\ max_scan key best bk items = inl e.
Proof.
  induction items as [|x rest IH]; intros best bk Hex; [by inversion Hex|].
  simpl. destruct (key x) as [e|k] eqn:Hx.
  - exists x, e. repeat split; [left | done..].
  - assert (Hrest : Exists (fun x => exists e, key x = inl e) rest).
    { inversion Hex as [? ? [e He]|]; subst; [congruence | done]. }
    simpl. destruct (bk <? k).
    + destruct (IH x k Hrest) as (y & e & Hin & Hy & Hr).
      exists y, e. repeat split; [by right | done..].
    + destruct (IH best bk Hrest) as (y & e & Hin & Hy & Hr).
      exists y, e. repeat split; [by right | done..].
Qed.

(** The key is applied to the items in order: the scan ends with the
    exception of the first item whose key raises. *)
Lemma py_max_key_error (items : list json) :
  Exists (fun x => exists e, key x = inl e) items ->
  exists x e, x ∈ items /\ key x = inl e /\ py_max key items = inl e.
Proof.
  destruct items as [|x rest]; intros Hex; [by inversion Hex|].
  simpl. destruct (key x) as [e|k] eqn:Hx.
  - exists x, e. repeat split; [left | done..].
  - assert (Hrest : Exists (fun x => exists e, key x = inl e) rest).
    { inversion Hex as [? ? [e He]|]; subst; [congruence | done]. }
    destruct (max_scan_key_error rest x k Hrest) as (y & e & Hin & Hy & Hr).
    exists y, e. repeat split; [by right | done..].
Qed.

End MaxScan.

(** ** Build entries *)

Lemma build_number_entry (entry : json) (k : Z) :
  build_number entry = Some k ->
  exists d s, entry = JDict d /\ dict_lookup "buildNumber" d = Some (JStr s)
              /\ int_of_str s = Some k.
Proof.
  unfold build_number, getitem. destruct entry as [| | | | |l|d]; try done.
  destruct (dict_lookup "buildNumber" d) as [[| | | |s| |]|] eqn:Hd; try done.
  intros Hs. by exists d, s.
Qed.

Lemma build_number_key (entry : json) (k : Z) :
  build_number entry = Some k -> build_key entry = inr k.
Proof.
  intros (d & s & -> & Hd & Hs)%build_number_entry.
  unfold build_key, getitem. rewrite Hd. simpl. by rewrite Hs.
Qed.

Section ResolverFacts.
Context {H : Host}.

Lemma get_g2m_info_decoded (base_url : string) (self self' : processor H) (jsondata : json) :
  feed_decoded base_url self jsondata self' ->
  get_g2m_info base_url self = (latest_release jsondata, self').
Proof.
  intros (meta_file & self1 & Hdl & Hload).
  unfold get_g2m_info, bind. by rewrite Hdl, Hload.
Qed.

(** The second half of [get_g2m_info] once [max] has chosen an entry
    with a non-empty URL. *)
Lemma latest_release_chosen (jsondata : json) (entries : list json)
    (d : list (string * json)) (u build : string) :
  getitem jsondata "activeBuilds" = inr (JList entries) ->
  py_max build_key entries = inr (JDict d) ->
  dict_lookup "macDownloadUrl" d = Some (JStr u) -> u <> "" ->
  dict_lookup "buildNumber" d = Some (JStr build) ->
  latest_release jsondata = inr (normalized u, build).
Proof.
  intros Hget Hmax Hurl Hu Hb. unfold latest_release.
  rewrite Hget. simpl. rewrite Hmax. simpl. rewrite Hurl. simpl.
  destruct (String.eqb u "") eqn:Heq; [by apply String.eqb_eq in Heq|]. simpl.
  rewrite (set_last_removelast _ _ (str_split_not_nil "/" u)). simpl.
  by rewrite Hb.
Qed.

(** The same once [max] has chosen an entry without a URL. *)
Lemma latest_release_no_url (jsondata : json) (entries : list json)
    (d : list (string * json)) :
  getitem jsondata "activeBuilds" = inr (JList entries) ->
  py_max build_key entries = inr (JDict d) ->
  truthy (default JNull (dict_lookup "macDownloadUrl" d)) = false ->
  latest_release jsondata = inl no_download_url.
Proof.
  intros Hget Hmax Hurl. unfold latest_release.
  rewrite Hget. simpl. rewrite Hmax. simpl. by rewrite Hurl.
Qed.

(** On a document of well-formed entries [max] chooses an entry that
    carries the greatest build number. *)
Lemma py_max_newest (entries : list json) (k : Z) :
  Forall (fun e => is_Some (build_number e)) entries ->
  (exists e, e ∈ entries /\ build_number e = Some k) ->
  (forall e k', e ∈ entries -> build_number e = Some k' -> k' <= k) ->
  exists m, py_max build_key entries = inr m /\ m ∈ entries /\ build_number m = Some k.
Proof.
  intros Hwf (e0 & Hin0 & Hk0) Hmax.
  assert (Hkeys : Forall (fun x => exists k, build_key x = inr k) entries).
  { eapply Forall_impl; [exact Hwf|]. intros e [k' Hk']. exists k'. by apply build_number_key. }
  destruct (py_max_ok build_key entries) as (m & km & Hm & Hin & Hkm & Hbound);
    [by intros -> ; inversion Hin0 | done |].
  exists m. split; [done|]. split; [done|].
  rewrite Forall_forall in Hwf, Hbound.
  destruct (Hwf m Hin) as [k' Hk'].
  pose proof (build_number_key _ _ Hk') as Hkey'.
  assert (k' = km) as -> by congruence.
  pose proof (Hmax m km Hin Hk').
  destruct (Hbound e0 Hin0) as (k0 & Hkey0 & Hle0).
  pose proof (build_number_key _ _ Hk0) as Hkey0'.
  assert (k0 = k) as -> by congruence.
  rewrite Hk'. f_equal. lia.
Qed.

End ResolverFacts.

(** ** The stages of [get_g2m_info] *)

Section StageFacts.
Context {H : Host}.

Lemma with_world_same (self : processor H) : with_world self (host_world self) = self.
Proof. by destruct self. Qed.

Lemma keeps_env_ret {A} (a : A) : keeps_env (ret a).
Proof. done. Qed.

Lemma keeps_env_lift {A} (r : result A) : keeps_env (lift r).
Proof. done. Qed.

Lemma keeps_env_on_world {A} (f : world -> result A * world) : keeps_env (on_world f).
Proof. intros self. unfold on_world. by destruct (f (host_world self)). Qed.

Lemma keeps_env_getitem (key : string) : keeps_env (env_getitem key).
Proof. intros self. unfold env_getitem. by destruct (env self !! key). Qed.

Lemma keeps_env_output (msg : string) : keeps_env (self_output msg).
Proof. apply keeps_env_on_world. Qed.

Lemma keeps_env_bind {A B} (c : Proc H A) (k : A -> Proc H B) :
  keeps_env c -> (forall a, keeps_env (k a)) -> keeps_env (bind c k).
Proof.
  intros Hc Hk self. unfold bind. specialize (Hc self).
  destruct (c self) as [[e|a] self1]; simpl in *; [done|].
  by rewrite (Hk a self1).
Qed.

Lemma keeps_env_try {A} (body handler : Proc H A) (cls : pyclass) :
  keeps_env body -> keeps_env handler -> keeps_env (try_except body cls handler).
Proof.
  intros Hb Hh self. unfold try_except. specialize (Hb self).
  destruct (body self) as [[e|a] self1]; simpl in *; [|done].
  destruct (isinstance e cls); [|done]. by rewrite (Hh self1).
Qed.

Create HintDb keeps_env.
Hint Resolve keeps_env_ret keeps_env_lift keeps_env_on_world keeps_env_getitem
  keeps_env_output keeps_env_bind keeps_env_try : keeps_env.

Lemma keeps_env_load_feed (meta_file : string) : keeps_env (load_feed meta_file).
Proof. unfold load_feed. auto 12 with keeps_env. Qed.

Lemma keeps_env_download_feed (base_url : string) : keeps_env (download_feed base_url).
Proof. unfold download_feed. auto 12 with keeps_env. Qed.

Lemma keeps_env_get_g2m_info (base_url : string) : keeps_env (get_g2m_info base_url).
Proof.
  unfold get_g2m_info.
  apply keeps_env_bind; [apply keeps_env_download_feed|]. intros meta_file.
  apply keeps_env_bind; [apply keeps_env_load_feed|]. intros jsondata.
  apply keeps_env_lift.
Qed.

(** [load_feed] by cases on what the two decoders say of the file. *)
Section LoadFeed.
Variables (meta_file : string) (self : processor H) (data : list byte).
Hypothesis Hread : read_binary meta_file (host_world self) = inr data.

Lemma load_feed_json (jsondata : json) :
  json_loads data = inr jsondata ->
  load_feed meta_file self
  = (inr jsondata, with_world self (output "Encoding: json" (host_world self))).
Proof.
  intros Hjson. unfold load_feed, try_except, bind, on_world, lift, self_output, ret.
  simpl. by rewrite Hread, Hjson.
Qed.

Lemma load_feed_raised (e : exn) :
  json_loads data = inl e -> isinstance e ValueError = false ->
  load_feed meta_file self = (inl e, self).
Proof.
  intros Hjson Hcls. unfold load_feed, try_except, bind, on_world, lift, self_output, ret.
  simpl. rewrite Hread, Hjson. simpl. rewrite Hcls. by destruct self.
Qed.

Lemma load_feed_gzip (e : exn) (plain : list byte) (jsondata : json) :
  json_loads data = inl e -> isinstance e ValueError = true ->
  gzip_decompress data = inr plain -> json_loads plain = inr jsondata ->
  load_feed meta_file self
  = (inr jsondata, with_world self (output "Encoding: gzip" (host_world self))).
Proof.
  intros Hjson Hcls Hgz Hplain.
  unfold load_feed, try_except, bind, on_world, lift, self_output, ret.
  simpl. rewrite Hread, Hjson. simpl. rewrite Hcls. simpl.
  by rewrite Hread, Hgz, Hplain.
Qed.

Lemma load_feed_not_gzip (e e2 : exn) :
  json_loads data = inl e -> isinstance e ValueError = true ->
  gzip_decompress data = inl e2 ->
  load_feed meta_file self = (inl e2, self).
Proof.
  intros Hjson Hcls Hgz.
  unfold load_feed, try_except, bind, on_world, lift, self_output, ret.
  simpl. rewrite Hread, Hjson. simpl. rewrite Hcls. simpl.
  rewrite Hread, Hgz. by destruct self.
Qed.

Lemma load_feed_gzip_not_json (e e3 : exn) (plain : list byte) :
  json_loads data = inl e -> isinstance e ValueError = true ->
  gzip_decompress data = inr plain -> json_loads plain = inl e3 ->
  load_feed meta_file self = (inl e3, self).
Proof.
  intros Hjson Hcls Hgz Hplain.
  unfold load_feed, try_except, bind, on_world, lift, self_output, ret.
  simpl. rewrite Hread, Hjson. simpl. rewrite Hcls. simpl.
  rewrite Hread, Hgz, Hplain. by destruct self.
Qed.
End LoadFeed.

End StageFacts.

(** ** The resolver *)

Section Claims.
Context {H : Host}.

(** C1. On a feed document whose entries carry integer build numbers
    (strings that [int] reads), whose list of entries is not empty, and
    whose entries with the greatest build number [k] have a non-empty
    [macDownloadUrl], [get_g2m_info] returns: the URL of such an entry
    with its last segment replaced, so that the last segment after
    splitting on [/] is [GoToMeeting.dmg], and that entry's build number
    string, whose integer value is [k]. On the document of the two builds
    1000 and 1050 the result is the URL
    [https://cdn.example.com/1050/GoToMeeting.dmg] and the build [1050]. *)
Theorem resolve_newest_build :
  (forall (base_url : string) (self self' : processor H) (jsondata : json)
          (entries : list json) (k : Z),
      feed_decoded base_url self jsondata self' ->
      getitem jsondata "activeBuilds" = inr (JList entries) ->
      Forall (fun e => is_Some (build_number e)) entries ->
      (exists e, e ∈ entries /\ build_number e = Some k) ->
      (forall e k', e ∈ entries -> build_number e = Some k' -> k' <= k) ->
      (forall e, e ∈ entries -> build_number e = Some k ->
                 exists u, mac_download_url e = Some (JStr u) /\ u <> "") ->
      exists m u build,
        m ∈ entries /\ build_number m = Some k
        /\ mac_download_url m = Some (JStr u)
        /\ getitem m "buildNumber" = inr (JStr build)
        /\ get_g2m_info base_url self = (inr (normalized u, build), self')
        /\ last (str_split "/" (normalized u)) = Some "GoToMeeting.dmg"
        /\ int_of_str build = Some k)
  /\ latest_release (Examples.feed_of Examples.two_builds)
     = inr ("https://cdn.example.com/1050/GoToMeeting.dmg", "1050").
Proof.
  split; [|reflexivity].
  intros base_url self self' jsondata entries k Hfeed Hget Hwf Hk Hmax Hurl.
  destruct (py_max_newest entries k Hwf Hk Hmax) as (m & Hm & Hin & Hnum).
  destruct (Hurl m Hin Hnum) as (u & Hu & Hne).
  destruct (build_number_entry m k Hnum) as (d & build & -> & Hd & Hbuild).
  exists (JDict d), u, build. repeat split; try done.
  - unfold getitem. by rewrite Hd.
  - rewrite (get_g2m_info_decoded _ _ _ _ Hfeed).
    by rewrite (latest_release_chosen jsondata entries d u build).
  - rewrite str_split_normalized. apply last_snoc.
Qed.

(** C2. On a feed document whose entries carry integer build numbers and
    whose entries with the greatest build number have no
    [macDownloadUrl], or an empty or null one, [get_g2m_info] raises the
    [ProcessorError] that says no download URL was found, whatever the
    URLs of the entries with lower build numbers are. *)
Theorem resolve_no_download_url (base_url : string) (self self' : processor H)
    (jsondata : json) (entries : list json) (k : Z) :
  feed_decoded base_url self jsondata self' ->
  getitem jsondata "activeBuilds" = inr (JList entries) ->
  Forall (fun e => is_Some (build_number e)) entries ->
  (exists e, e ∈ entries /\ build_number e = Some k) ->
  (forall e k', e ∈ entries -> build_number e = Some k' -> k' <= k) ->
  (forall e, e ∈ entries -> build_number e = Some k ->
             mac_download_url e = None
             \/ mac_download_url e = Some (JStr "")
             \/ mac_download_url e = Some JNull) ->
  get_g2m_info base_url self = (inl no_download_url, self').
Proof.
  intros Hfeed Hget Hwf Hk Hmax Hurl.
  destruct (py_max_newest entries k Hwf Hk Hmax) as (m & Hm & Hin & Hnum).
  specialize (Hurl m Hin Hnum).
  destruct (build_number_entry m k Hnum) as (d & build & -> & Hd & Hbuild).
  rewrite (get_g2m_info_decoded _ _ _ _ Hfeed).
  rewrite (latest_release_no_url jsondata entries d); [done..|].
  simpl in Hurl. by destruct Hurl as [-> | [-> | ->]].
Qed.

(** C5. Build numbers are compared as integers: of two entries with the
    build numbers 9 and 10, in either order, [max] selects the entry
    with 10, although the string [10] sorts before the string [9]; and
    when that entry has a URL the resolver returns build 10. *)
Theorem resolve_compares_integers (jsondata e9 e10 : json) (entries : list json) :
  getitem e9 "buildNumber" = inr (JStr "9") ->
  getitem e10 "buildNumber" = inr (JStr "10") ->
  entries = [e9; e10] \/ entries = [e10; e9] ->
  getitem jsondata "activeBuilds" = inr (JList entries) ->
  py_max build_key entries = inr e10
  /\ String.ltb "10" "9" = true
  /\ (forall u, mac_download_url e10 = Some (JStr u) -> u <> "" ->
                latest_release jsondata = inr (normalized u, "10")).
Proof.
  intros H9 H10 Hentries Hget.
  assert (Hmax : py_max build_key entries = inr e10).
  { destruct Hentries as [-> | ->]; unfold py_max, max_scan, build_key;
      rewrite ?H9, ?H10; reflexivity. }
  repeat split; [done..|].
  intros u Hu Hne.
  destruct e10 as [| | | | | |d]; try discriminate.
  eapply latest_release_chosen; eauto.
  unfold getitem in H10. by destruct (dict_lookup "buildNumber" d); simplify_eq.
Qed.

(** C9. On a feed document whose [activeBuilds] is the empty list,
    [get_g2m_info] ends with the [ValueError] of [max] on an empty
    sequence, raised after the download and the decoding succeeded; it
    is no [ProcessorError], so neither the error for the missing URL nor
    an error of a decoder, and no [except] clause of the processor
    catches it. *)
Theorem resolve_empty_builds (base_url : string) (self self' : processor H)
    (jsondata : json) :
  feed_decoded base_url self jsondata self' ->
  getitem jsondata "activeBuilds" = inr (JList []) ->
  let err := Raise ValueError "max() arg is an empty sequence" in
  get_g2m_info base_url self = (inl err, self')
  /\ err <> no_download_url
  /\ isinstance err ProcessorError = false
  /\ isinstance err JSONDecodeError = false
  /\ isinstance err OSError = false.
Proof.
  intros Hfeed Hget err. repeat split; try done.
  rewrite (get_g2m_info_decoded _ _ _ _ Hfeed).
  unfold latest_release. by rewrite Hget.
Qed.

(** C10. [max] computes the key, [int] of the [buildNumber], of every
    entry: it returns an entry only when every key was computed. So on a
    feed document whose entries all have a string as [buildNumber], one
    of which [int] does not read, [get_g2m_info] ends with the
    [ValueError] of [int], wherever that entry stands and whatever its
    number would have been; no [except] clause catches it. *)
Theorem resolve_bad_build_number :
  (forall (entries : list json) (m : json),
      py_max build_key entries = inr m ->
      Forall (fun e => exists b k, getitem e "buildNumber" = inr b /\ py_int b = inr k)
             entries)
  /\ (forall (base_url : string) (self self' : processor H) (jsondata : json)
             (entries : list json),
        feed_decoded base_url self jsondata self' ->
        getitem jsondata "activeBuilds" = inr (JList entries) ->
        Forall (fun e => exists s, getitem e "buildNumber" = inr (JStr s)) entries ->
        Exists (fun e => exists s, getitem e "buildNumber" = inr (JStr s)
                                   /\ int_of_str s = None) entries ->
        get_g2m_info base_url self
        = (inl (Raise ValueError "invalid literal for int() with base 10"), self')).
Proof.
  split.
  - intros entries m Hm.
    apply Forall_forall. intros e He.
    destruct (build_key e) as [err|k] eqn:Hkey.
    + destruct (py_max_key_error build_key entries) as (x & e' & _ & _ & Hr).
      { apply Exists_exists. exists e. split; [done | by exists err]. }
      congruence.
    + unfold build_key in Hkey.
      destruct (getitem e "buildNumber") as [|b]; [done|]. by exists b, k.
  - intros base_url self self' jsondata entries Hfeed Hget Hstr Hbad.
    rewrite (get_g2m_info_decoded _ _ _ _ Hfeed).
    destruct (py_max_key_error build_key entries) as (x & e & Hin & Hx & Hr).
    { eapply Exists_impl; [exact Hbad|]. intros e (s & Hs & Hint).
      eexists. unfold build_key. rewrite Hs. simpl. by rewrite Hint. }
    rewrite Forall_forall in Hstr. destruct (Hstr x Hin) as [s Hs].
    unfold latest_release. rewrite Hget. simpl. rewrite Hr. simpl. f_equal.
    unfold build_key in Hx. rewrite Hs in Hx. simpl in Hx.
    destruct (int_of_str s); congruence.
Qed.

(** C3, as the code has it. When the downloaded bytes are neither JSON
    nor gzipped JSON, [get_g2m_info] fails with the exception of the
    decoder that rejected them, as that decoder raised it: the one of
    [json.loads] when it is no [ValueError]; otherwise the one of gzip
    when the bytes are no gzip file, and the one of the second
    [json.loads] when they are. Nothing is reported and the processor
    raises no error of its own. *)
Theorem resolve_invalid_feed (base_url : string) (self self1 : processor H)
    (data : list byte) (e1 : exn) :
  feed_downloaded base_url self data self1 ->
  json_loads data = inl e1 ->
  (forall plain, gzip_decompress data = inr plain -> exists e3, json_loads plain = inl e3) ->
  exists e,
    get_g2m_info base_url self = (inl e, self1)
    /\ (isinstance e1 ValueError = false /\ e = e1
        \/ isinstance e1 ValueError = true /\ gzip_decompress data = inl e
        \/ isinstance e1 ValueError = true
           /\ exists plain, gzip_decompress data = inr plain /\ json_loads plain = inl e).
Proof.
  intros (meta_file & Hdl & Hread) Hjson Hgz.
  unfold get_g2m_info, bind. rewrite Hdl.
  destruct (isinstance e1 ValueError) eqn:Hcls.
  - destruct (gzip_decompress data) as [e2|plain] eqn:Hplain.
    + exists e2. rewrite (load_feed_not_gzip _ _ _ Hread e1 e2) by done. auto.
    + destruct (Hgz plain eq_refl) as [e3 He3]. exists e3.
      rewrite (load_feed_gzip_not_json _ _ _ Hread e1 e3 plain) by done.
      split; [done|]. right. right. split; [done|]. by exists plain.
  - exists e1. rewrite (load_feed_raised _ _ _ Hread e1) by done. auto.
Qed.

(** C4. When [data] is JSON and [gz] is a gzip file of [data] that
    [json.loads] rejects with a [ValueError], [get_g2m_info] returns on
    the download of [gz] what it returns on the download of [data]:
    what the second half of the method makes of the decoded document. *)
Theorem resolve_gzip_as_plain (base_url : string)
    (self_plain self_gz s_plain s_gz : processor H)
    (data gz : list byte) (jsondata : json) (e : exn) :
  feed_downloaded base_url self_plain data s_plain ->
  feed_downloaded base_url self_gz gz s_gz ->
  json_loads data = inr jsondata ->
  gzip_decompress gz = inr data ->
  json_loads gz = inl e -> isinstance e ValueError = true ->
  fst (get_g2m_info base_url self_gz) = fst (get_g2m_info base_url self_plain)
  /\ fst (get_g2m_info base_url self_plain) = latest_release jsondata.
Proof.
  intros (f1 & Hdl1 & Hread1) (f2 & Hdl2 & Hread2) Hjson Hgz Hnot Hcls.
  unfold get_g2m_info, bind. rewrite Hdl1, Hdl2.
  rewrite (load_feed_json _ _ _ Hread1 jsondata Hjson).
  by rewrite (load_feed_gzip _ _ _ Hread2 e data jsondata).
Qed.

(** C6. [main] writes both outputs or none: when [get_g2m_info] returns
    a URL and a build, [main] succeeds and [self.env] is what it was
    with [url] and [build] set to them; when [get_g2m_info] raises,
    [main] raises the same exception and [self.env] is what it was.
    Between the two assignments stands a call of [Processor.output],
    which cannot fail in the interface of the host. *)
Theorem main_all_or_nothing (g : module_globals) (self : processor H) :
  let base_url := default (BASE_URL g) (env self !! "base_url") in
  match fst (get_g2m_info base_url self) with
  | inr (g2m_url, g2m_build) =>
      fst (main g self) = inr tt
      /\ env (snd (main g self)) = <["build" := g2m_build]> (<["url" := g2m_url]> (env self))
      /\ env (snd (main g self)) !! "url" = Some g2m_url
      /\ env (snd (main g self)) !! "build" = Some g2m_build
  | inl e =>
      fst (main g self) = inl e /\ env (snd (main g self)) = env self
  end.
Proof.
  intros base_url.
  pose proof (keeps_env_get_g2m_info base_url self) as Henv.
  unfold main, bind, env_get. simpl. fold base_url.
  destruct (get_g2m_info base_url self) as [[e|[g2m_url g2m_build]] self1]; simpl in *.
  - done.
  - unfold env_getitem, env_setitem, self_output, on_world. simpl.
    rewrite lookup_insert_eq. simpl. rewrite lookup_insert_eq. simpl.
    rewrite Henv. repeat split.
    + rewrite lookup_insert_ne by done. by rewrite lookup_insert_eq.
    + by rewrite lookup_insert_eq.
Qed.

(** C8. Preparing the download directory cannot stop the resolver on a
    directory that exists: when [os.makedirs] raises [FileExistsError]
    the method goes on with the download, the decoding and the choice
    of the build exactly as it does when the directory was created. *)
Theorem download_dir_may_exist (base_url cache_dir : string) (self : processor H)
    (r : result unit) (w' : world) :
  env self !! "RECIPE_CACHE_DIR" = Some cache_dir ->
  os_makedirs (path_join cache_dir "downloads") (host_world self) = (r, w') ->
  (r = inr tt \/ exists e, r = inl e /\ exc_class e = FileExistsError) ->
  get_g2m_info base_url self
  = (do meta_file <- on_world (download_to_file base_url
                       (path_join (path_join cache_dir "downloads") "meta"));
     do jsondata <- load_feed meta_file;
     lift (latest_release jsondata)) (with_world self w').
Proof.
  intros Hcache Hmk Hr.
  unfold get_g2m_info, download_feed, bind at 1 2 3, env_getitem, try_except.
  rewrite Hcache. unfold on_world at 1. rewrite Hmk.
  destruct Hr as [-> | (e & -> & Hcls)].
  - unfold bind. done.
  - unfold isinstance. rewrite Hcls. simpl. unfold bind. done.
Qed.

End Claims.

(** C7, as the code has it. On a Mac older than 10.13.0 the module looks
    the host up with [gethostbyname_ex] and takes the first component of
    the answer, the canonical host name, for [HOSTNAME]; the default feed
    URL is built on that name. *)
Theorem legacy_hostname_is_canonical_name (p : platform) (name : string)
    (aliases addresses : list string) :
  is_mac p = true ->
  loose_version_lt p (mac_ver p) "10.13.0" = true ->
  gethostbyname_ex p "builds.cdn.getgo.com" = inr (name, aliases, addresses) ->
  load_module p
  = inr {| HOSTNAME := name;
           BASE_URL := "https://" ++ name ++ "/g2mupdater/live/config.json" |}.
Proof.
  intros Hmac Hold Hanswer. unfold load_module. by rewrite Hmac, Hold, Hanswer.
Qed.

(** ** The claims on the reference host *)

#[local] Existing Instance RefHost.host.

(** A run is settled by its result; the state it reaches stays as written. *)
Lemma pair_of_fst {A B} (p : A * B) (a : A) : fst p = a -> p = (a, snd p).
Proof. intros <-. apply surjective_pairing. Qed.

Lemma decoded_on_reference (body : list byte) (jsondata : json) :
  fst (download_feed Examples.feed_url (Examples.serving body)) = inr Examples.meta_file ->
  fst (load_feed Examples.meta_file (Examples.downloaded body)) = inr jsondata ->
  feed_decoded Examples.feed_url (Examples.serving body) jsondata (Examples.decoded body).
Proof.
  intros Hdl Hload. exists Examples.meta_file, (Examples.downloaded body).
  split; by apply pair_of_fst.
Qed.

Lemma downloaded_on_reference (body : list byte) :
  fst (download_feed Examples.feed_url (Examples.serving body)) = inr Examples.meta_file ->
  read_binary Examples.meta_file (host_world (Examples.downloaded body)) = inr body ->
  feed_downloaded Examples.feed_url (Examples.serving body) body (Examples.downloaded body).
Proof.
  intros Hdl Hread. exists Examples.meta_file. split; [by apply pair_of_fst | done].
Qed.

(** The end-to-end example of C1, from the text of the feed. *)
Lemma resolve_newest_build_witness :
  exists m u build,
    m ∈ Examples.two_builds /\ build_number m = Some 1050
    /\ mac_download_url m = Some (JStr u)
    /\ getitem m "buildNumber" = inr (JStr build)
    /\ get_g2m_info Examples.feed_url (Examples.serving Examples.two_builds_text)
       = (inr (normalized u, build), Examples.decoded Examples.two_builds_text)
    /\ last (str_split "/" (normalized u)) = Some "GoToMeeting.dmg"
    /\ int_of_str build = Some 1050.
Proof.
  apply (proj1 resolve_newest_build Examples.feed_url
           (Examples.serving Examples.two_builds_text)
           (Examples.decoded Examples.two_builds_text)
           (Examples.feed_of Examples.two_builds) Examples.two_builds 1050).
  - apply decoded_on_reference; vm_compute; reflexivity.
  - reflexivity.
  - repeat constructor; by eexists.
  - exists (Examples.entry "1050" "https://cdn.example.com/1050/NewApp.dmg").
    split; [right; left | reflexivity].
  - intros e k' Hin Hk. each_entry Hin; vm_compute in Hk; injection Hk as <-; lia.
  - intros e Hin Hk. each_entry Hin; [discriminate Hk|].
    by exists "https://cdn.example.com/1050/NewApp.dmg".
Defined.

(** C2 where the older build has a URL and the newest has none. *)
Lemma resolve_no_download_url_witness :
  get_g2m_info Examples.feed_url (Examples.serving Examples.newest_without_url_text)
  = (inl no_download_url, Examples.decoded Examples.newest_without_url_text)
  /\ mac_download_url (Examples.entry "1000" "https://cdn.example.com/1000/OldApp.dmg")
     = Some (JStr "https://cdn.example.com/1000/OldApp.dmg").
Proof.
  split; [|reflexivity].
  apply (resolve_no_download_url Examples.feed_url
           (Examples.serving Examples.newest_without_url_text)
           (Examples.decoded Examples.newest_without_url_text)
           (Examples.feed_of Examples.newest_without_url) Examples.newest_without_url 1050).
  - apply decoded_on_reference; vm_compute; reflexivity.
  - reflexivity.
  - repeat constructor; by eexists.
  - exists (JDict [("buildNumber", JStr "1050")]). split; [right; left | reflexivity].
  - intros e k' Hin Hk. each_entry Hin; vm_compute in Hk; injection Hk as <-; lia.
  - intros e Hin Hk. each_entry Hin; [discriminate Hk | by left].
Defined.

(** C3: two inputs that are neither JSON nor gzipped JSON end with two
    different exceptions of the decoders; the first is an [OSError], the
    second a [ValueError] as the errors of [max] and [int] are, neither
    is a [ProcessorError], and [Exception] is the only class that holds
    both. *)
Lemma invalid_feed_raises_decoder_errors :
  (exists e, RefHost.loads Examples.garbage = inl e)
  /\ RefHost.gunzip Examples.garbage = inl (Raise BadGzipFile "Not a gzipped file")
  /\ (exists e, RefHost.loads Examples.garbage_gz = inl e)
  /\ RefHost.gunzip Examples.garbage_gz = inr Examples.garbage
  /\ fst (get_g2m_info Examples.feed_url (Examples.serving Examples.garbage))
     = inl (Raise BadGzipFile "Not a gzipped file")
  /\ fst (get_g2m_info Examples.feed_url (Examples.serving Examples.garbage_gz))
     = inl (Raise JSONDecodeError "Expecting value")
  /\ isinstance (Raise BadGzipFile "Not a gzipped file") OSError = true
  /\ isinstance (Raise JSONDecodeError "Expecting value") ValueError = true
  /\ isinstance (Raise BadGzipFile "Not a gzipped file") ProcessorError = false
  /\ isinstance (Raise JSONDecodeError "Expecting value") ProcessorError = false
  /\ (forall cls,
        isinstance (Raise BadGzipFile "Not a gzipped file") cls = true ->
        isinstance (Raise JSONDecodeError "Expecting value") cls = true ->
        cls = Exception).
Proof.
  repeat split; try (vm_compute; reflexivity);
    try (eexists; vm_compute; reflexivity).
  intros cls. by destruct cls.
Qed.

Lemma resolve_invalid_feed_witness :
  exists e,
    get_g2m_info Examples.feed_url (Examples.serving Examples.garbage_gz)
    = (inl e, Examples.downloaded Examples.garbage_gz)
    /\ (isinstance (Raise JSONDecodeError "Expecting value") ValueError = false
        /\ e = Raise JSONDecodeError "Expecting value"
        \/ isinstance (Raise JSONDecodeError "Expecting value") ValueError = true
           /\ RefHost.gunzip Examples.garbage_gz = inl e
        \/ isinstance (Raise JSONDecodeError "Expecting value") ValueError = true
           /\ exists plain, RefHost.gunzip Examples.garbage_gz = inr plain
                            /\ RefHost.loads plain = inl e).
Proof.
  apply (resolve_invalid_feed Examples.feed_url (Examples.serving Examples.garbage_gz)
           (Examples.downloaded Examples.garbage_gz)
           Examples.garbage_gz (Raise JSONDecodeError "Expecting value")).
  - apply downloaded_on_reference; vm_compute; reflexivity.
  - vm_compute; reflexivity.
  - intros plain Hplain. vm_compute in Hplain. injection Hplain as <-.
    eexists. vm_compute. reflexivity.
Defined.

(** C4 on the example document and a gzip file of its text. *)
Lemma resolve_gzip_as_plain_witness :
  fst (get_g2m_info Examples.feed_url
         (Examples.serving (RefHost.gzip_stored Examples.two_builds_text)))
  = fst (get_g2m_info Examples.feed_url (Examples.serving Examples.two_builds_text))
  /\ fst (get_g2m_info Examples.feed_url (Examples.serving Examples.two_builds_text))
     = latest_release (Examples.feed_of Examples.two_builds).
Proof.
  apply (resolve_gzip_as_plain Examples.feed_url
           (Examples.serving Examples.two_builds_text)
           (Examples.serving (RefHost.gzip_stored Examples.two_builds_text))
           (Examples.downloaded Examples.two_builds_text)
           (Examples.downloaded (RefHost.gzip_stored Examples.two_builds_text))
           Examples.two_builds_text (RefHost.gzip_stored Examples.two_builds_text)
           (Examples.feed_of Examples.two_builds)
           (Raise JSONDecodeError "Expecting value")).
  - apply downloaded_on_reference; vm_compute; reflexivity.
  - apply downloaded_on_reference; vm_compute; reflexivity.
  - vm_compute; reflexivity.
  - vm_compute; reflexivity.
  - vm_compute; reflexivity.
  - reflexivity.
Defined.

Lemma resolve_compares_integers_witness :
  py_max build_key [Examples.entry "9" "https://cdn.example.com/9/App.dmg";
                    Examples.entry "10" "https://cdn.example.com/10/App.dmg"]
  = inr (Examples.entry "10" "https://cdn.example.com/10/App.dmg")
  /\ String.ltb "10" "9" = true
  /\ (forall u,
        mac_download_url (Examples.entry "10" "https://cdn.example.com/10/App.dmg")
        = Some (JStr u) -> u <> "" ->
        latest_release (H := RefHost.host)
          (Examples.feed_of [Examples.entry "9" "https://cdn.example.com/9/App.dmg";
                             Examples.entry "10" "https://cdn.example.com/10/App.dmg"])
        = inr (normalized u, "10")).
Proof.
  apply (resolve_compares_integers (H := RefHost.host)
           (Examples.feed_of [Examples.entry "9" "https://cdn.example.com/9/App.dmg";
                              Examples.entry "10" "https://cdn.example.com/10/App.dmg"])
           (Examples.entry "9" "https://cdn.example.com/9/App.dmg")
           (Examples.entry "10" "https://cdn.example.com/10/App.dmg")).
  - reflexivity.
  - reflexivity.
  - by left.
  - reflexivity.
Defined.

(** C7: on a Mac with 10.12.6 the host name the module keeps is the
    canonical name of the resolver's answer; it is not an IP address
    literal and not one of the addresses of the answer. *)
Lemma legacy_hostname_is_no_address :
  is_mac Examples.sierra = true
  /\ loose_version_lt Examples.sierra (mac_ver Examples.sierra) "10.13.0" = true
  /\ gethostbyname_ex Examples.sierra "builds.cdn.getgo.com"
     = inr ("e4242.dscb.akamaiedge.net", ["builds.cdn.getgo.com"], ["203.0.113.7"])
  /\ load_module Examples.sierra
     = inr {| HOSTNAME := "e4242.dscb.akamaiedge.net";
              BASE_URL := "https://e4242.dscb.akamaiedge.net/g2mupdater/live/config.json" |}
  /\ is_ipv4_literal "e4242.dscb.akamaiedge.net" = false
  /\ is_ipv4_literal "203.0.113.7" = true
  /\ "e4242.dscb.akamaiedge.net" ∉ ["203.0.113.7"].
Proof.
  repeat split; try (vm_compute; reflexivity).
  intros Hin. apply elem_of_cons in Hin as [Heq | Hin]; [discriminate Heq|].
  by apply elem_of_nil in Hin.
Qed.

Lemma legacy_hostname_is_canonical_name_witness :
  load_module Examples.sierra
  = inr {| HOSTNAME := "e4242.dscb.akamaiedge.net";
           BASE_URL := "https://" ++ "e4242.dscb.akamaiedge.net"
                       ++ "/g2mupdater/live/config.json" |}.
Proof.
  apply (legacy_hostname_is_canonical_name Examples.sierra "e4242.dscb.akamaiedge.net"
           ["builds.cdn.getgo.com"] ["203.0.113.7"]); vm_compute; reflexivity.
Defined.

(** C8 with the download directory in place before the run: creating it
    raises [FileExistsError], and the resolver returns the newest build. *)
Lemma download_dir_may_exist_witness :
  fst (RefHost.makedirs "/cache/downloads"
         (host_world (Examples.serving_again Examples.two_builds_text)))
  = inl (Raise FileExistsError "/cache/downloads")
  /\ get_g2m_info Examples.feed_url (Examples.serving_again Examples.two_builds_text)
     = (do meta_file <- on_world (download_to_file Examples.feed_url
                          (path_join (path_join "/cache" "downloads") "meta"));
        do jsondata <- load_feed meta_file;
        lift (latest_release jsondata))
         (with_world (Examples.serving_again Examples.two_builds_text)
            (snd (RefHost.makedirs "/cache/downloads"
                    (host_world (Examples.serving_again Examples.two_builds_text)))))
  /\ fst (get_g2m_info Examples.feed_url (Examples.serving_again Examples.two_builds_text))
     = inr ("https://cdn.example.com/1050/GoToMeeting.dmg", "1050").
Proof.
  split; [vm_compute; reflexivity|]. split; [|vm_compute; reflexivity].
  apply (download_dir_may_exist Examples.feed_url "/cache"
           (Examples.serving_again Examples.two_builds_text)
           (inl (Raise FileExistsError "/cache/downloads"))).
  - vm_compute; reflexivity.
  - apply pair_of_fst. vm_compute; reflexivity.
  - right. by eexists.
Defined.

Lemma resolve_empty_builds_witness :
  get_g2m_info Examples.feed_url (Examples.serving Examples.no_builds_text)
  = (inl (Raise ValueError "max() arg is an empty sequence"),
     Examples.decoded Examples.no_builds_text)
  /\ Raise ValueError "max() arg is an empty sequence" <> no_download_url
  /\ isinstance (Raise ValueError "max() arg is an empty sequence") ProcessorError = false
  /\ isinstance (Raise ValueError "max() arg is an empty sequence") JSONDecodeError = false
  /\ isinstance (Raise ValueError "max() arg is an empty sequence") OSError = false.
Proof.
  apply (resolve_empty_builds Examples.feed_url (Examples.serving Examples.no_builds_text)
           (Examples.decoded Examples.no_builds_text) (Examples.feed_of [])).
  - apply decoded_on_reference; vm_compute; reflexivity.
  - reflexivity.
Defined.

(** C10 where the entry that [int] rejects follows the newest build. *)
Lemma resolve_bad_build_number_witness :
  get_g2m_info Examples.feed_url (Examples.serving Examples.with_bad_number_text)
  = (inl (Raise ValueError "invalid literal for int() with base 10"),
     Examples.decoded Examples.with_bad_number_text).
Proof.
  apply (proj2 resolve_bad_build_number Examples.feed_url
           (Examples.serving Examples.with_bad_number_text)
           (Examples.decoded Examples.with_bad_number_text)
           (Examples.feed_of Examples.with_bad_number) Examples.with_bad_number).
  - apply decoded_on_reference; vm_compute; reflexivity.
  - reflexivity.
  - repeat constructor; by eexists.
  - right. left. by exists "1.0-beta".
Defined.

(** * Further properties of the processor *)

(** ** Which entry [max] returns *)

Section FirstMax.
Variable key : json -> result Z.

Lemma max_scan_keeps (items : list json) : forall best bk,
  Forall (fun x => exists k, key x = inr k /\ k <= bk) items ->
  max_scan key best bk items = inr best.
Proof.
  induction items as [|x rest IH]; intros best bk Hall; [done|].
  inversion Hall as [|? ? (k & Hk & Hle) Hrest]; subst. simpl. rewrite Hk. simpl.
  assert ((bk <? k) = false) as -> by lia. by apply IH.
Qed.

Lemma max_scan_first (pre post : list json) (m : json) (k : Z) : forall best bk,
  bk < k ->
  Forall (fun x => exists k', key x = inr k' /\ k' < k) pre ->
  key m = inr k ->
  Forall (fun x => exists k', key x = inr k' /\ k' <= k) post ->
  max_scan key best bk (pre ++ m :: post) = inr m.
Proof.
  induction pre as [|x pre IH]; intros best bk Hbk Hpre Hm Hpost.
  - simpl. rewrite Hm. simpl. assert ((bk <? k) = true) as -> by lia.
    by apply max_scan_keeps.
  - inversion Hpre as [|? ? (k' & Hk' & Hlt) Hpre']; subst.
    simpl. rewrite Hk'. simpl. destruct (bk <? k'); by apply IH.
Qed.

Lemma py_max_first (pre post : list json) (m : json) (k : Z) :
  Forall (fun x => exists k', key x = inr k' /\ k' < k) pre ->
  key m = inr k ->
  Forall (fun x => exists k', key x = inr k' /\ k' <= k) post ->
  py_max key (pre ++ m :: post) = inr m.
Proof.
  intros Hpre Hm Hpost. destruct pre as [|x pre].
  - simpl. rewrite Hm. simpl. by apply max_scan_keeps.
  - inversion Hpre as [|? ? (k' & Hk' & Hlt) Hpre']; subst.
    simpl. rewrite Hk'. simpl. by apply (max_scan_first pre post m k).
Qed.

(** A list whose keys are all computed has a first maximum. *)
Lemma first_max_exists (items : list json) :
  items <> [] ->
  Forall (fun x => exists k, key x = inr k) items ->
  exists pre m post k,
    items = (pre ++ m :: post)%list /\ key m = inr k
    /\ Forall (fun x => exists k', key x = inr k' /\ k' < k) pre
    /\ Forall (fun x => exists k', key x = inr k' /\ k' <= k) post.
Proof.
  induction items as [|x rest IH]; [done|]. intros _ Hall.
  inversion Hall as [|? ? [kx Hkx] Hrest]; subst.
  destruct rest as [|y rest'].
  - exists [], x, [], kx. by repeat split.
  - assert (Hne : y :: rest' <> []) by done.
    destruct (IH Hne Hrest) as (pre & m & post & k & Heq & Hm & Hpre & Hpost).
    destruct (Z_lt_le_dec kx k) as [Hlt|Hge].
    + exists (x :: pre), m, post, k. rewrite Heq. repeat split; try done.
      constructor; [by exists kx | done].
    + exists [], x, (y :: rest'), kx. repeat split; try done.
      rewrite Heq. apply Forall_app. split.
      * eapply Forall_impl; [exact Hpre|]. intros e (k' & He & Hk'). exists k'. split; [done | lia].
      * constructor; [exists k; split; [done | lia]|].
        eapply Forall_impl; [exact Hpost|]. intros e (k' & He & Hk'). exists k'. split; [done | lia].
Qed.

Lemma py_max_all_keys (items : list json) (m : json) :
  py_max key items = inr m ->
  items <> [] /\ Forall (fun x => exists k, key x = inr k) items.
Proof.
  intros Hm. split; [by intros ->|].
  apply Forall_forall. intros x Hx.
  destruct (key x) as [err|k] eqn:Hkey; [|by exists k].
  destruct (py_max_key_error key items) as (y & e & _ & _ & Hr); [|congruence].
  apply Exists_exists. exists x. split; [done | by exists err].
Qed.

Lemma max_scan_first_error (pre post : list json) (x : json) (e : exn) : forall best bk,
  Forall (fun y => exists k, key y = inr k) pre ->
  key x = inl e ->
  max_scan key best bk (pre ++ x :: post) = inl e.
Proof.
  induction pre as [|y pre IH]; intros best bk Hpre Hx.
  - simpl. by rewrite Hx.
  - inversion Hpre as [|? ? [k Hk] Hpre']; subst. simpl. rewrite Hk. simpl.
    destruct (bk <? k); by apply IH.
Qed.

Lemma py_max_first_error (pre post : list json) (x : json) (e : exn) :
  Forall (fun y => exists k, key y = inr k) pre ->
  key x = inl e ->
  py_max key (pre ++ x :: post) = inl e.
Proof.
  intros Hpre Hx. destruct pre as [|y pre].
  - simpl. by rewrite Hx.
  - inversion Hpre as [|? ? [k Hk] Hpre']; subst. simpl. rewrite Hk. simpl.
    by apply max_scan_first_error.
Qed.

End FirstMax.

Lemma newest_first_max (entries : list json) (m : json) (k : Z) :
  newest_first entries m k -> py_max build_key entries = inr m.
Proof. intros (pre & post & -> & Hm & Hpre & Hpost). by apply (py_max_first build_key _ _ _ k). Qed.

Lemma max_newest_first (entries : list json) (m : json) :
  py_max build_key entries = inr m -> exists k, newest_first entries m k.
Proof.
  intros Hm. destruct (py_max_all_keys _ _ _ Hm) as [Hne Hkeys].
  destruct (first_max_exists build_key entries Hne Hkeys)
    as (pre & m' & post & k & Heq & Hm' & Hpre & Hpost).
  assert (Hfirst : newest_first entries m' k) by (by exists pre, post).
  pose proof (newest_first_max _ _ _ Hfirst) as Hm2.
  assert (m = m') as -> by congruence. by exists k.
Qed.

Lemma build_key_dict (entry : json) (k : Z) :
  build_key entry = inr k ->
  exists d b, entry = JDict d /\ dict_lookup "buildNumber" d = Some b /\ py_int b = inr k.
Proof.
  unfold build_key, getitem. destruct entry as [| | | | | |d]; try done.
  destruct (dict_lookup "buildNumber" d) as [b|] eqn:Hb; [|done].
  intros Hk. by exists d, b.
Qed.

(** ** What the resolver returns, and when *)

Section Selection.
Context {H : Host}.

Lemma latest_release_of_choice (jsondata : json) (entries : list json)
    (d : list (string * json)) :
  getitem jsondata "activeBuilds" = inr (JList entries) ->
  py_max build_key entries = inr (JDict d) ->
  latest_release jsondata
  = let g2m_url := default JNull (dict_lookup "macDownloadUrl" d) in
    if negb (truthy g2m_url) then inl no_download_url
    else
      let? url_parts := split_method g2m_url "/" in
      let? url_parts := set_last url_parts "GoToMeeting.dmg" in
      let? build_number := getitem (JDict d) "buildNumber" in
      inr (str_join "/" url_parts, py_str repr_other build_number).
Proof. intros Hget Hmax. unfold latest_release. rewrite Hget. simpl. by rewrite Hmax. Qed.

Lemma get_g2m_info_chosen (base_url : string) (self self' : processor H)
    (jsondata : json) (entries : list json) (m : json) (k : Z) (u : string) :
  feed_decoded base_url self jsondata self' ->
  getitem jsondata "activeBuilds" = inr (JList entries) ->
  newest_first entries m k ->
  mac_download_url m = Some (JStr u) -> u <> "" ->
  exists b,
    getitem m "buildNumber" = inr b /\ py_int b = inr k
    /\ get_g2m_info base_url self = (inr (normalized u, py_str repr_other b), self').
Proof.
  intros Hfeed Hget Hfirst Hu Hne.
  pose proof (newest_first_max _ _ _ Hfirst) as Hmax.
  destruct Hfirst as (pre & post & _ & Hm & _ & _).
  destruct (build_key_dict m k Hm) as (d & b & -> & Hb & Hk).
  exists b. unfold getitem. rewrite Hb. repeat split; [done|].
  rewrite (get_g2m_info_decoded _ _ _ _ Hfeed).
  rewrite (latest_release_of_choice jsondata entries d Hget Hmax).
  simpl in Hu. rewrite Hu. simpl.
  destruct (String.eqb u "") eqn:Heq; [by apply String.eqb_eq in Heq|]. simpl.
  rewrite (set_last_removelast _ _ (str_split_not_nil "/" u)). simpl.
  by rewrite Hb.
Qed.

(** X1. Ties go to the first: when several entries carry the greatest
    build number, the entry that comes first in the document is the one
    whose URL and build number [get_g2m_info] returns, whatever the JSON
    type of the build numbers. *)
Theorem resolve_first_of_newest (base_url : string) (self self' : processor H)
    (jsondata : json) (entries : list json) (m : json) (k : Z) (u : string) :
  feed_decoded base_url self jsondata self' ->
  getitem jsondata "activeBuilds" = inr (JList entries) ->
  newest_first entries m k ->
  mac_download_url m = Some (JStr u) -> u <> "" ->
  exists b,
    getitem m "buildNumber" = inr b /\ py_int b = inr k
    /\ get_g2m_info base_url self = (inr (normalized u, py_str repr_other b), self').
Proof. apply get_g2m_info_chosen. Qed.

(** X2. Whenever [get_g2m_info] returns, the feed was downloaded and
    decoded to a dict whose [activeBuilds] is a non-empty list of dicts,
    every one with a [buildNumber] that [int] converts; the result is made
    of the first entry with the greatest number: its [macDownloadUrl] is a
    non-empty string, the URL returned is that string with the last
    segment replaced by [GoToMeeting.dmg], and the build returned is [str]
    of its [buildNumber]. *)
Theorem resolve_success_sound (base_url : string) (self self' : processor H)
    (url build : string) :
  get_g2m_info base_url self = (inr (url, build), self') ->
  exists jsondata entries m k u b,
    feed_decoded base_url self jsondata self'
    /\ getitem jsondata "activeBuilds" = inr (JList entries)
    /\ newest_first entries m k
    /\ mac_download_url m = Some (JStr u) /\ u <> ""
    /\ getitem m "buildNumber" = inr b /\ py_int b = inr k
    /\ url = normalized u /\ build = py_str repr_other b
    /\ last (str_split "/" url) = Some "GoToMeeting.dmg".
Proof.
  unfold get_g2m_info, bind. intros Hrun.
  destruct (download_feed base_url self) as [[e|meta_file] self1] eqn:Hdl; [done|].
  destruct (load_feed meta_file self1) as [[e|jsondata] self2] eqn:Hload; [done|].
  unfold lift in Hrun. injection Hrun as Hrel ->.
  assert (Hfeed : feed_decoded base_url self jsondata self') by (by exists meta_file, self1).
  unfold latest_release in Hrel.
  destruct (getitem jsondata "activeBuilds") as [|builds] eqn:Hget; [done|]. simpl in Hrel.
  destruct (iterate builds) as [|items] eqn:Hitems; [done|]. simpl in Hrel.
  destruct (py_max build_key items) as [|m] eqn:Hmax; [done|]. simpl in Hrel.
  destruct (max_newest_first items m Hmax) as [k Hfirst].
  destruct (py_max_all_keys _ _ _ Hmax) as [Hne Hkeys].
  assert (builds = JList items) as ->.
  { destruct builds as [| | | |s|l|d]; try done; simpl in Hitems.
    - injection Hitems as <-. destruct s as [|c s]; [done|].
      inversion Hkeys as [|? ? [k' Hk'] _]; subst. done.
    - by injection Hitems as ->.
    - injection Hitems as <-. destruct d as [|[key v] d]; [done|].
      inversion Hkeys as [|? ? [k' Hk'] _]; subst. done. }
  pose proof Hfirst as (pre & post & _ & Hm & _ & _).
  destruct (build_key_dict m k Hm) as (d & b & -> & Hb & Hk).
  simpl in Hrel.
  destruct (dict_lookup "macDownloadUrl" d) as [v|] eqn:Hv; [|done]. simpl in Hrel.
  destruct (truthy v) eqn:Htrue; [|done]. simpl in Hrel.
  destruct v as [| | | |u| |]; try done. simpl in Hrel.
  rewrite (set_last_removelast _ _ (str_split_not_nil "/" u)) in Hrel. simpl in Hrel.
  rewrite Hb in Hrel. simpl in Hrel. injection Hrel as <- <-.
  exists jsondata, items, (JDict d), k, u, b.
  repeat split; try done.
  - simpl in Htrue. intros ->. done.
  - unfold getitem. by rewrite Hb.
  - fold (normalized u). rewrite str_split_normalized. apply last_snoc.
Qed.

(** X3. The scan stops at the first entry, in document order, whose key
    cannot be computed, and [get_g2m_info] ends with the exception of that
    entry: a [KeyError] for a dict without [buildNumber], a [TypeError]
    for an entry that is no dict, the error of [int] otherwise. Entries
    after it are not looked at. *)
Theorem resolve_first_bad_entry (base_url : string) (self self' : processor H)
    (jsondata : json) (pre post : list json) (x : json) (e : exn) :
  feed_decoded base_url self jsondata self' ->
  getitem jsondata "activeBuilds" = inr (JList (pre ++ x :: post)) ->
  Forall (fun y => exists k, build_key y = inr k) pre ->
  build_key x = inl e ->
  get_g2m_info base_url self = (inl e, self')
  /\ (forall d, x = JDict d -> dict_lookup "buildNumber" d = None ->
                e = Raise KeyError "buildNumber")
  /\ ((forall d, x <> JDict d) -> exc_class e = TypeError).
Proof.
  intros Hfeed Hget Hpre Hx. repeat split.
  - rewrite (get_g2m_info_decoded _ _ _ _ Hfeed).
    unfold latest_release. rewrite Hget. simpl.
    by rewrite (py_max_first_error build_key pre post x e Hpre Hx).
  - intros d -> Hd. unfold build_key, getitem in Hx. rewrite Hd in Hx. simpl in Hx. congruence.
  - intros Hnot. unfold build_key, getitem in Hx.
    destruct x as [| | | | | |d]; simpl in Hx; try (injection Hx as <-; done).
    by destruct (Hnot d).
Qed.

(** X4. A [macDownloadUrl] of the chosen entry that is no string: when it
    is falsy (0, false, an empty list or dict) the method raises the
    error for the missing URL, as for an absent one; when it is truthy
    the method ends with the [AttributeError] of the call of [split]. *)
Theorem resolve_url_not_a_string (base_url : string) (self self' : processor H)
    (jsondata : json) (entries : list json) (m : json) (k : Z) (v : json) :
  feed_decoded base_url self jsondata self' ->
  getitem jsondata "activeBuilds" = inr (JList entries) ->
  newest_first entries m k ->
  mac_download_url m = Some v -> (forall s, v <> JStr s) ->
  get_g2m_info base_url self
  = (inl (if truthy v then Raise AttributeError "object has no attribute 'split'"
          else no_download_url), self').
Proof.
  intros Hfeed Hget Hfirst Hv Hnot.
  pose proof (newest_first_max _ _ _ Hfirst) as Hmax.
  destruct Hfirst as (pre & post & _ & Hm & _ & _).
  destruct (build_key_dict m k Hm) as (d & b & -> & Hb & Hk).
  rewrite (get_g2m_info_decoded _ _ _ _ Hfeed).
  rewrite (latest_release_of_choice jsondata entries d Hget Hmax).
  simpl in Hv. rewrite Hv. simpl.
  destruct (truthy v) eqn:Htrue; [|done]. simpl.
  destruct v as [| | | |s| |]; try done. by destruct (Hnot s).
Qed.

End Selection.

(** ** The order of the entries and the errors of the choice *)

Lemma max_scan_error_origin (key : json -> result Z) (items : list json) (e : exn) :
  forall best bk,
    max_scan key best bk items = inl e -> exists x, x ∈ items /\ key x = inl e.
Proof.
  induction items as [|x rest IH]; intros best bk Hscan; [done|].
  simpl in Hscan. destruct (key x) as [err|k] eqn:Hx; simpl in Hscan.
  - injection Hscan as ->. exists x. split; [left | done].
  - destruct (bk <? k); destruct (IH _ _ Hscan) as (y & Hin & Hy);
      exists y; (split; [by right | done]).
Qed.

Lemma py_max_error_origin (key : json -> result Z) (items : list json) (e : exn) :
  py_max key items = inl e ->
  e = Raise ValueError "max() arg is an empty sequence"
  \/ exists x, x ∈ items /\ key x = inl e.
Proof.
  intros Hmax. destruct items as [|x rest]; [left; simpl in Hmax; congruence|]. right.
  simpl in Hmax. destruct (key x) as [err|k] eqn:Hx; simpl in Hmax.
  - injection Hmax as ->. exists x. split; [left | done].
  - destruct (max_scan_error_origin _ _ _ _ _ Hmax) as (y & Hin & Hy).
    exists y. split; [by right | done].
Qed.

(** X17. The build number that wins does not depend on the order of the
    entries: on a permutation of the list [max] returns an entry with
    the same key (among equal keys it may be another entry). *)
Theorem newest_build_number_any_order (entries entries' : list json) (m : json) (k : Z) :
  Permutation entries entries' ->
  py_max build_key entries = inr m -> build_key m = inr k ->
  exists m', py_max build_key entries' = inr m' /\ build_key m' = inr k.
Proof.
  intros Hperm Hm Hk.
  destruct (py_max_all_keys _ _ _ Hm) as [Hne Hkeys].
  destruct (py_max_ok build_key entries Hne Hkeys) as (m1 & k1 & Hm1 & Hin1 & Hk1 & Hb1).
  assert (m1 = m) as -> by congruence. assert (k1 = k) as -> by congruence.
  assert (Hne' : entries' <> []).
  { intros ->. apply Permutation_nil_r in Hperm. done. }
  assert (Hkeys' : Forall (fun x => exists k, build_key x = inr k) entries')
    by (by rewrite <- Hperm).
  destruct (py_max_ok build_key entries' Hne' Hkeys') as (m' & k' & Hm' & Hin' & Hk' & Hb').
  exists m'. split; [done|]. rewrite Hk'. f_equal.
  rewrite Forall_forall in Hb1, Hb'.
  destruct (Hb1 m') as (ka & Hka & Hle1); [by rewrite Hperm|].
  destruct (Hb' m) as (kb & Hkb & Hle2); [by rewrite <- Hperm|].
  assert (ka = k') by congruence. assert (kb = k) by congruence. lia.
Qed.

Section SelectionErrors.
Context {H : Host}.

(** X18. The exceptions of lines 89 to 102 belong to six classes:
    [KeyError], [TypeError], [ValueError], [OverflowError],
    [AttributeError] and [ProcessorError]. The item assignment to the
    last URL part never raises an [IndexError], and the only
    [ProcessorError] is the one for the missing download URL. *)
Theorem latest_release_errors (jsondata : json) (e : exn) :
  latest_release jsondata = inl e ->
  exc_class e ∈ selection_errors
  /\ (exc_class e = ProcessorError -> e = no_download_url).
Proof.
  unfold latest_release, selection_errors. intros Hrel.
  assert (Hgetitem : forall obj key r, getitem obj key = inl r ->
            exc_class r = KeyError \/ exc_class r = TypeError).
  { intros obj key r Hr. unfold getitem in Hr.
    destruct obj as [| | | | | |d]; simplify_eq; auto.
    destruct (dict_lookup key d); simplify_eq; auto. }
  assert (Hint : forall v r, py_int v = inl r ->
            exc_class r = ValueError \/ exc_class r = TypeError
            \/ exc_class r = OverflowError).
  { intros v r Hr. unfold py_int in Hr.
    destruct v as [| | |f|s| |]; simplify_eq; auto.
    - destruct f; simplify_eq; auto.
    - destruct (int_of_str s); simplify_eq; auto. }
  assert (Hclose : forall r : exn,
            exc_class r = KeyError \/ exc_class r = TypeError \/ exc_class r = ValueError
            \/ exc_class r = OverflowError \/ exc_class r = AttributeError ->
            exc_class r ∈ selection_errors
            /\ (exc_class r = ProcessorError -> r = no_download_url)).
  { intros r Hr. split.
    - unfold selection_errors.
      destruct Hr as [-> | [-> | [-> | [-> | ->]]]]; apply list_elem_of_In; simpl; auto 10.
    - intros Hp. rewrite Hp in Hr. by repeat destruct Hr as [Hr|Hr]. }
  destruct (getitem jsondata "activeBuilds") as [r|builds] eqn:Hget; simpl in Hrel.
  { simplify_eq. apply Hclose. destruct (Hgetitem _ _ _ Hget); auto. }
  destruct (iterate builds) as [r|items] eqn:Hitems; simpl in Hrel.
  { simplify_eq. apply Hclose. destruct builds; simpl in Hitems; simplify_eq; auto. }
  destruct (py_max build_key items) as [r|m] eqn:Hmax; simpl in Hrel.
  { simplify_eq. apply Hclose.
    destruct (py_max_error_origin _ _ _ Hmax) as [-> | (x & _ & Hx)]; [auto|].
    unfold build_key in Hx.
    destruct (getitem x "buildNumber") as [r'|b] eqn:Hb; simpl in Hx.
    - simplify_eq. destruct (Hgetitem _ _ _ Hb); auto.
    - destruct (Hint _ _ Hx) as [? | [? | ?]]; auto. }
  destruct (max_newest_first _ _ Hmax) as (k & pre & post & _ & Hm & _).
  destruct (build_key_dict m k Hm) as (d & b & -> & Hb & Hk).
  simpl in Hrel.
  destruct (truthy (default JNull (dict_lookup "macDownloadUrl" d))) eqn:Htrue; simpl in Hrel.
  - destruct (default JNull (dict_lookup "macDownloadUrl" d)) as [| | | |u| |];
      simpl in Hrel; try (simplify_eq; apply Hclose; simpl; by auto 6).
    rewrite (set_last_removelast _ _ (str_split_not_nil "/" u)) in Hrel. simpl in Hrel.
    by rewrite Hb in Hrel.
  - simplify_eq. split; [|done]. apply list_elem_of_In. simpl. auto 10.
Qed.

End SelectionErrors.

(** ** The URL that is returned *)

Lemma append_assoc (a b c : string) : (a ++ b) ++ c = a ++ (b ++ c).
Proof. induction a as [|x a IH]; [done|]. by rewrite !append_cons, IH. Qed.

Lemma str_split_whole (sep : ascii) (s : string) :
  contains sep s = false -> str_split sep s = [s].
Proof.
  intros Hs. rewrite <- (append_nil_r s) at 1.
  rewrite (str_split_app sep s "" Hs). simpl. by rewrite append_nil_r.
Qed.

(** Splitting at a separator: the parts before it, then the parts after it. *)
Lemma str_split_at_sep (sep : ascii) (a b : string) :
  str_split sep (a ++ String sep b) = (str_split sep a ++ str_split sep b)%list.
Proof.
  induction a as [|c a IH].
  - rewrite append_nil_l, str_split_sep. done.
  - rewrite append_cons. simpl str_split. rewrite IH.
    pose proof (str_split_not_nil sep a) as Ha.
    destruct (Ascii.eqb c sep); [done|].
    by destruct (str_split sep a).
Qed.

Lemma str_join_snoc (sep : ascii) (l : list string) (x : string) :
  l <> [] ->
  str_join (String sep EmptyString) (l ++ [x]) = str_join (String sep EmptyString) l ++ String sep x.
Proof.
  induction l as [|p ps IH]; [done|]. intros _.
  destruct ps as [|q qs].
  - done.
  - change ((p :: q :: qs) ++ [x])%list with (p :: q :: (qs ++ [x]))%list.
    rewrite !str_join_cons.
    change (q :: (qs ++ [x]))%list with ((q :: qs) ++ [x])%list.
    rewrite IH by done. by rewrite append_assoc, append_cons.
Qed.

(** X5. The URL keeps its directory: a URL [dir/file] whose [file] has
    no slash becomes [dir/GoToMeeting.dmg], whatever [dir] is (scheme,
    host, empty segments and all), and a URL without any slash becomes
    [GoToMeeting.dmg]. *)
Theorem normalized_keeps_directory (dir file : string) :
  contains "/" file = false ->
  normalized (dir ++ "/" ++ file) = dir ++ "/GoToMeeting.dmg"
  /\ normalized file = "GoToMeeting.dmg".
Proof.
  intros Hfile. unfold normalized. split.
  - change (dir ++ "/" ++ file) with (dir ++ String "/" file).
    rewrite str_split_at_sep, (str_split_whole _ _ Hfile), removelast_last.
    rewrite (str_join_snoc "/") by apply str_split_not_nil.
    by rewrite str_join_split.
  - by rewrite (str_split_whole _ _ Hfile).
Qed.

(** X6. Replacing the file name is idempotent, and the URLs it leaves as
    they are are exactly those whose last segment is [GoToMeeting.dmg]. *)
Theorem normalized_idempotent (url : string) :
  normalized (normalized url) = normalized url
  /\ (normalized url = url <-> last (str_split "/" url) = Some "GoToMeeting.dmg").
Proof.
  split.
  - unfold normalized at 1. by rewrite str_split_normalized, removelast_last.
  - split.
    + intros <-. rewrite str_split_normalized. apply last_snoc.
    + intros Hlast. unfold normalized.
      pose proof (str_split_not_nil "/" url) as Hne.
      destruct (exists_last Hne) as (l & x & Heq). rewrite Heq in Hlast |- *.
      rewrite last_snoc in Hlast. injection Hlast as ->.
      rewrite removelast_last, <- Heq. apply str_join_split.
Qed.

(** ** The build number that is returned *)

Lemma scan_digits_numeral (d : Decimal.uint) : forall acc,
  scan_digits acc false (NilEmpty.string_of_uint d) = Some (uint_value acc d, EmptyString).
Proof. induction d; intros acc; simpl; try done; by rewrite IHd. Qed.

Lemma uint_value_acc (d : Decimal.uint) : forall acc,
  Z.pos (Pos.of_uint_acc d acc) = uint_value (Z.pos acc) d.
Proof.
  induction d; intros acc; simpl; try done; rewrite IHd; f_equal; lia.
Qed.

Lemma uint_value_of_uint (d : Decimal.uint) : Z.of_N (Pos.of_uint d) = uint_value 0 d.
Proof.
  induction d; simpl; try done; apply uint_value_acc.
Qed.

Lemma int_of_str_numeral (p : positive) :
  int_of_str (NilEmpty.string_of_uint (Pos.to_uint p)) = Some (Z.pos p)
  /\ int_of_str (String "-" (NilEmpty.string_of_uint (Pos.to_uint p))) = Some (Z.neg p).
Proof.
  pose proof (DecimalPos.Unsigned.of_to p) as Hp.
  assert (Hval : uint_value 0 (Pos.to_uint p) = Z.pos p).
  { rewrite <- uint_value_of_uint, Hp. done. }
  pose proof (scan_digits_numeral (Pos.to_uint p) 0) as Hscan. rewrite Hval in Hscan.
  unfold int_of_str.
  destruct (Pos.to_uint p) as [|u|u|u|u|u|u|u|u|u|u]; [done|..];
    simpl in Hscan |- *; rewrite Hscan; simpl; split; f_equal; lia.
Qed.

Lemma int_of_str_decimal (n : Z) :
  int_of_str (NilZero.string_of_int (Z.to_int n)) = Some n.
Proof.
  destruct n as [|p|p]; [done|..]; simpl;
    destruct (int_of_str_numeral p) as [Hpos Hneg].
  - unfold NilZero.string_of_uint.
    destruct (Pos.to_uint p); [discriminate Hpos|..]; by rewrite Hpos.
  - unfold NilZero.string_of_uint.
    destruct (Pos.to_uint p); [discriminate Hpos|..]; by rewrite Hneg.
Qed.

Section IntegerBuildNumber.
Context {H : Host}.


End IntegerBuildNumber.

(** ** The stages before the choice *)

Section StageOutcomes.
Context {H : Host}.

Lemma get_g2m_info_makedirs (base_url cache_dir : string) (self : processor H)
    (r : result unit) (w' : world) :
  env self !! "RECIPE_CACHE_DIR" = Some cache_dir ->
  os_makedirs (path_join cache_dir "downloads") (host_world self) = (r, w') ->
  get_g2m_info base_url self
  = match r with
    | inr _ => after_makedirs base_url cache_dir (with_world self w')
    | inl e =>
        if isinstance e OSError
        then after_makedirs base_url cache_dir (with_world self w')
        else (inl e, with_world self w')
    end.
Proof.
  intros Hcache Hmk.
  unfold get_g2m_info, download_feed, bind at 1 2 3, env_getitem, try_except.
  rewrite Hcache. unfold on_world at 1. rewrite Hmk.
  destruct r as [e|[]]; [|done].
  destruct (isinstance e OSError); done.
Qed.

(** X8. Without [RECIPE_CACHE_DIR] in the environment [main] ends with
    the [KeyError] of that name before it touches anything: no directory
    is made, nothing is downloaded or reported, no variable is set. *)
Theorem main_without_cache_dir (g : module_globals) (self : processor H) :
  env self !! "RECIPE_CACHE_DIR" = None ->
  main g self = (inl (Raise KeyError "RECIPE_CACHE_DIR"), self).
Proof.
  intros Hcache.
  unfold main, bind, env_get, get_g2m_info, download_feed, bind, env_getitem.
  by rewrite Hcache.
Qed.

(** X9. Every [OSError] of [os.makedirs] is dropped, not only the one for
    a directory that exists: after a [PermissionError], say, the method
    goes on to the download as if the directory had been made. An
    exception of [os.makedirs] that is no [OSError] ends the method
    before anything is downloaded. *)
Theorem makedirs_errors (base_url cache_dir : string) (self : processor H)
    (e : exn) (w' : world) :
  env self !! "RECIPE_CACHE_DIR" = Some cache_dir ->
  os_makedirs (path_join cache_dir "downloads") (host_world self) = (inl e, w') ->
  get_g2m_info base_url self
  = if isinstance e OSError
    then after_makedirs base_url cache_dir (with_world self w')
    else (inl e, with_world self w').
Proof. intros Hcache Hmk. by rewrite (get_g2m_info_makedirs _ _ _ _ _ Hcache Hmk). Qed.

(** X10. An exception of [download_to_file] ends the method as it is:
    the URL asked for is [base_url], the destination is the file [meta]
    in the directory [downloads] of the cache directory, and when the
    download raises nothing is read, decoded or reported. *)
Theorem download_error_propagates (base_url cache_dir : string) (self : processor H)
    (r : result unit) (w1 w2 : world) (e : exn) :
  env self !! "RECIPE_CACHE_DIR" = Some cache_dir ->
  os_makedirs (path_join cache_dir "downloads") (host_world self) = (r, w1) ->
  (r = inr tt \/ exists e0, r = inl e0 /\ isinstance e0 OSError = true) ->
  download_to_file base_url (path_join (path_join cache_dir "downloads") "meta") w1
  = (inl e, w2) ->
  get_g2m_info base_url self = (inl e, with_world self w2).
Proof.
  intros Hcache Hmk Hr Hdl.
  rewrite (get_g2m_info_makedirs _ _ _ _ _ Hcache Hmk).
  assert (Hgo : after_makedirs base_url cache_dir (with_world self w1)
                = (inl e, with_world self w2)).
  { unfold after_makedirs, bind, on_world. simpl. by rewrite Hdl. }
  destruct Hr as [-> | (e0 & -> & Hcls)]; [done|]. by rewrite Hcls.
Qed.

(** X11. An exception of reading the downloaded file is never masked by
    the gzip fallback: whatever its class, [get_g2m_info] ends with that
    exception (a [ValueError] sends the method to the handler, which
    reads the file again and meets it again). *)
Theorem read_error_propagates (base_url meta_file : string) (self self1 : processor H)
    (e : exn) :
  download_feed base_url self = (inr meta_file, self1) ->
  read_binary meta_file (host_world self1) = inl e ->
  get_g2m_info base_url self = (inl e, self1).
Proof.
  intros Hdl Hread. unfold get_g2m_info, bind at 1. rewrite Hdl.
  unfold bind at 1, load_feed, try_except, bind, on_world, lift. simpl.
  rewrite Hread. simpl.
  destruct (isinstance e ValueError); simpl; rewrite ?Hread; by destruct self1.
Qed.

(** X12. What is decoded and what is reported. Bytes that [json.loads]
    accepts are used as they are and the one line reported is
    [Encoding: json]; the gzip decoder is not consulted. Bytes that it
    rejects with a [ValueError] and that decompress to JSON give the
    decompressed document and the one line [Encoding: gzip]. In both
    cases the method returns what lines 89 to 102 make of the document. *)
Theorem decoding_outcome (base_url : string) (self self1 : processor H)
    (data : list byte) (jsondata : json) :
  feed_downloaded base_url self data self1 ->
  (json_loads data = inr jsondata ->
   get_g2m_info base_url self
   = (latest_release jsondata,
      with_world self1 (output "Encoding: json" (host_world self1))))
  /\ (forall e plain,
        json_loads data = inl e -> isinstance e ValueError = true ->
        gzip_decompress data = inr plain -> json_loads plain = inr jsondata ->
        get_g2m_info base_url self
        = (latest_release jsondata,
           with_world self1 (output "Encoding: gzip" (host_world self1)))).
Proof.
  intros (meta_file & Hdl & Hread). split.
  - intros Hjson. unfold get_g2m_info, bind. rewrite Hdl.
    by rewrite (load_feed_json _ _ _ Hread jsondata Hjson).
  - intros e plain Hjson Hcls Hgz Hplain. unfold get_g2m_info, bind. rewrite Hdl.
    by rewrite (load_feed_gzip _ _ _ Hread e plain jsondata).
Qed.

Lemma main_unfolded (g : module_globals) (self : processor H) :
  main g self
  = match get_g2m_info (default (BASE_URL g) (env self !! "base_url")) self with
    | (inr (g2m_url, g2m_build), self1) =>
        (inr tt,
         {| env := <["build" := g2m_build]> (<["url" := g2m_url]> (env self));
            host_world := output ("Build number: " ++ g2m_build)
                            (output ("Found URL: " ++ g2m_url) (host_world self1)) |})
    | (inl e, self1) => (inl e, self1)
    end.
Proof.
  pose proof (keeps_env_get_g2m_info (default (BASE_URL g) (env self !! "base_url")) self)
    as Henv.
  unfold main, bind, env_get. simpl.
  destruct (get_g2m_info _ self) as [[e|[g2m_url g2m_build]] self1]; simpl in *.
  - done.
  - unfold env_getitem, env_setitem, self_output, on_world. simpl.
    rewrite lookup_insert_eq. simpl. rewrite lookup_insert_eq. simpl.
    by rewrite Henv.
Qed.

(** X13. What [main] adds to [get_g2m_info]. On success it sets [url],
    reports [Found URL:] with it, sets [build] and reports
    [Build number:] with it, in this order, and changes nothing else;
    earlier values of [url] and [build] are overwritten. On failure it
    adds nothing to what [get_g2m_info] did. The feed URL is the variable
    [base_url] when it is set, [BASE_URL] otherwise. *)
Theorem main_effect (g : module_globals) (self : processor H) :
  let base_url := default (BASE_URL g) (env self !! "base_url") in
  main g self
  = match get_g2m_info base_url self with
    | (inr (g2m_url, g2m_build), self1) =>
        (inr tt,
         {| env := <["build" := g2m_build]> (<["url" := g2m_url]> (env self));
            host_world := output ("Build number: " ++ g2m_build)
                            (output ("Found URL: " ++ g2m_url) (host_world self1)) |})
    | (inl e, self1) => (inl e, self1)
    end.
Proof. apply main_unfolded. Qed.

(** X19. [main] keeps to the variables the class declares as outputs:
    a variable that is not in [output_variables] has after [main] the
    value it had before, whether [main] succeeds or not, and after a
    success every variable of [output_variables] is set. *)
Theorem main_sets_declared_outputs (g : module_globals) (self : processor H)
    (key : string) :
  key ∉ output_variables ->
  env (snd (main g self)) !! key = env self !! key
  /\ (fst (main g self) = inr tt ->
      Forall (fun out => is_Some (env (snd (main g self)) !! out)) output_variables).
Proof.
  intros Hkey. rewrite main_unfolded.
  pose proof (keeps_env_get_g2m_info (default (BASE_URL g) (env self !! "base_url")) self)
    as Henv.
  destruct (get_g2m_info _ self) as [[e|[g2m_url g2m_build]] self1]; simpl in *.
  - by rewrite Henv.
  - split.
    + rewrite !lookup_insert_ne; [done|..]; intros <-; apply Hkey; set_solver.
    + intros _. repeat constructor.
      * rewrite lookup_insert_ne by done. rewrite lookup_insert_eq. by eexists.
      * rewrite lookup_insert_eq. by eexists.
Qed.

Lemma env_blind_ret {A} (a : A) : env_blind (ret a).
Proof. intros env1 env2 w _. by exists (inr a), w. Qed.

Lemma env_blind_lift {A} (r : result A) : env_blind (lift r).
Proof. intros env1 env2 w _. by exists r, w. Qed.

Lemma env_blind_on_world {A} (f : world -> result A * world) : env_blind (on_world f).
Proof.
  intros env1 env2 w _. unfold on_world. simpl.
  destruct (f w) as [r w']. by exists r, w'.
Qed.

Lemma env_blind_output (msg : string) : env_blind (self_output msg).
Proof. apply env_blind_on_world. Qed.

Lemma env_blind_cache_dir : env_blind (env_getitem "RECIPE_CACHE_DIR").
Proof.
  intros env1 env2 w Hsame. unfold env_getitem. simpl.
  unfold same_cache_dir in Hsame. rewrite <- Hsame.
  destruct (env1 !! "RECIPE_CACHE_DIR") as [v|]; by eexists _, w.
Qed.

Lemma env_blind_bind {A B} (c : Proc H A) (k : A -> Proc H B) :
  env_blind c -> (forall a, env_blind (k a)) -> env_blind (bind c k).
Proof.
  intros Hc Hk env1 env2 w Hsame. unfold bind.
  destruct (Hc env1 env2 w Hsame) as (r & w' & -> & ->).
  destruct r as [e|a]; [by exists (inl e), w'|].
  apply (Hk a env1 env2 w' Hsame).
Qed.

Lemma env_blind_try {A} (body handler : Proc H A) (cls : pyclass) :
  env_blind body -> env_blind handler -> env_blind (try_except body cls handler).
Proof.
  intros Hb Hh env1 env2 w Hsame. unfold try_except.
  destruct (Hb env1 env2 w Hsame) as (r & w' & -> & ->).
  destruct r as [e|a]; [|by exists (inr a), w'].
  destruct (isinstance e cls); [|by exists (inl e), w'].
  apply (Hh env1 env2 w' Hsame).
Qed.

Create HintDb env_blind.
Hint Resolve env_blind_ret env_blind_lift env_blind_on_world env_blind_output
  env_blind_cache_dir env_blind_bind env_blind_try : env_blind.

Lemma env_blind_load_feed (meta_file : string) : env_blind (load_feed meta_file).
Proof. unfold load_feed. auto 12 with env_blind. Qed.

Lemma env_blind_download_feed (base_url : string) : env_blind (download_feed base_url).
Proof. unfold download_feed. auto 12 with env_blind. Qed.

Lemma env_blind_get_g2m_info (base_url : string) : env_blind (get_g2m_info base_url).
Proof.
  unfold get_g2m_info.
  apply env_blind_bind; [apply env_blind_download_feed|]. intros meta_file.
  apply env_blind_bind; [apply env_blind_load_feed|]. intros jsondata.
  apply env_blind_lift.
Qed.


End StageOutcomes.

(** ** Loading the module *)

(** X15. When the module loads, [BASE_URL] is the feed path on
    [HOSTNAME] over https, and [HOSTNAME] is either the vendor's host
    name or, on a Mac older than 10.13.0 only, the first component of
    what [gethostbyname_ex] answered for that name. *)
Theorem load_module_sound (p : platform) (g : module_globals) :
  load_module p = inr g ->
  BASE_URL g = "https://" ++ HOSTNAME g ++ "/g2mupdater/live/config.json"
  /\ (HOSTNAME g = "builds.cdn.getgo.com"
      /\ (is_mac p = false \/ loose_version_lt p (mac_ver p) "10.13.0" = false)
      \/ is_mac p = true /\ loose_version_lt p (mac_ver p) "10.13.0" = true
         /\ exists aliases addresses,
              gethostbyname_ex p "builds.cdn.getgo.com"
              = inr (HOSTNAME g, aliases, addresses)).
Proof.
  unfold load_module. intros Hload.
  destruct (is_mac p) eqn:Hmac; [|injection Hload as <-; split; [done | left; auto]].
  destruct (loose_version_lt p (mac_ver p) "10.13.0") eqn:Hold;
    [|injection Hload as <-; split; [done | left; auto]].
  destruct (gethostbyname_ex p "builds.cdn.getgo.com") as [e|[[name aliases] addresses]];
    [done|]. simpl in Hload. injection Hload as <-. split; [done|].
  right. repeat split. by exists aliases, addresses.
Qed.

(** X16. Loading the module fails in one way only: on a Mac older than
    10.13.0 whose lookup of the vendor's host name raises, with the
    exception of the lookup. Elsewhere the resolver is not asked. *)
Theorem load_module_fails_on_lookup (p : platform) (e : exn) :
  load_module p = inl e
  <-> is_mac p = true /\ loose_version_lt p (mac_ver p) "10.13.0" = true
      /\ gethostbyname_ex p "builds.cdn.getgo.com" = inl e.
Proof.
  unfold load_module. split.
  - intros Hload.
    destruct (is_mac p); [|done].
    destruct (loose_version_lt p (mac_ver p) "10.13.0"); [|done].
    destruct (gethostbyname_ex p "builds.cdn.getgo.com") as [e'|answer]; [|done].
    simpl in Hload. by injection Hload as ->.
  - intros (-> & -> & ->). done.
Qed.

(** ** The further properties on the reference host *)

Lemma resolve_first_of_newest_witness :
  exists b,
    getitem (Examples.entry "1050" "https://cdn.example.com/a/First.dmg") "buildNumber" = inr b
    /\ py_int b = inr 1050
    /\ get_g2m_info Examples.feed_url (Examples.serving MoreExamples.tied_builds_text)
       = (inr (normalized "https://cdn.example.com/a/First.dmg", py_str repr_other b),
          Examples.decoded MoreExamples.tied_builds_text).
Proof.
  apply (resolve_first_of_newest Examples.feed_url
           (Examples.serving MoreExamples.tied_builds_text)
           (Examples.decoded MoreExamples.tied_builds_text)
           (Examples.feed_of MoreExamples.tied_builds) MoreExamples.tied_builds).
  - apply decoded_on_reference; vm_compute; reflexivity.
  - reflexivity.
  - exists [Examples.entry "1000" "https://cdn.example.com/1000/Old.dmg"],
           [Examples.entry "01050" "https://cdn.example.com/b/Second.dmg"].
    repeat split; [ | ]; repeat constructor;
      eexists; (split; [vm_compute; reflexivity | lia]).
  - reflexivity.
  - done.
Defined.

Lemma resolve_success_sound_witness :
  exists jsondata entries m k u b,
    feed_decoded Examples.feed_url (Examples.serving Examples.two_builds_text) jsondata
      (snd (get_g2m_info Examples.feed_url (Examples.serving Examples.two_builds_text)))
    /\ getitem jsondata "activeBuilds" = inr (JList entries)
    /\ newest_first entries m k
    /\ mac_download_url m = Some (JStr u) /\ u <> ""
    /\ getitem m "buildNumber" = inr b /\ py_int b = inr k
    /\ "https://cdn.example.com/1050/GoToMeeting.dmg" = normalized u
    /\ "1050" = py_str repr_other b
    /\ last (str_split "/" "https://cdn.example.com/1050/GoToMeeting.dmg")
       = Some "GoToMeeting.dmg".
Proof.
  apply (resolve_success_sound Examples.feed_url (Examples.serving Examples.two_builds_text)).
  apply pair_of_fst. vm_compute; reflexivity.
Defined.

Lemma resolve_first_bad_entry_witness :
  get_g2m_info Examples.feed_url (Examples.serving MoreExamples.two_bad_entries_text)
  = (inl (Raise KeyError "buildNumber"), Examples.decoded MoreExamples.two_bad_entries_text).
Proof.
  apply (resolve_first_bad_entry Examples.feed_url
           (Examples.serving MoreExamples.two_bad_entries_text)
           (Examples.decoded MoreExamples.two_bad_entries_text)
           (Examples.feed_of MoreExamples.two_bad_entries)
           [Examples.entry "1000" "https://cdn.example.com/1000/Old.dmg"]
           [Examples.entry "beta" "https://cdn.example.com/beta/App.dmg"]
           (JDict [("macDownloadUrl", JStr "https://cdn.example.com/x/App.dmg")])).
  - apply decoded_on_reference; vm_compute; reflexivity.
  - reflexivity.
  - repeat constructor. by eexists.
  - reflexivity.
Defined.

Lemma resolve_url_not_a_string_witness :
  get_g2m_info Examples.feed_url (Examples.serving MoreExamples.url_is_a_number_text)
  = (inl (Raise AttributeError "object has no attribute 'split'"),
     Examples.decoded MoreExamples.url_is_a_number_text).
Proof.
  apply (resolve_url_not_a_string Examples.feed_url
           (Examples.serving MoreExamples.url_is_a_number_text)
           (Examples.decoded MoreExamples.url_is_a_number_text)
           (Examples.feed_of MoreExamples.url_is_a_number) MoreExamples.url_is_a_number
           (JDict [("buildNumber", JStr "1050"); ("macDownloadUrl", JInt 404)]) 1050
           (JInt 404)).
  - apply decoded_on_reference; vm_compute; reflexivity.
  - reflexivity.
  - exists [], []. by repeat split.
  - reflexivity.
  - done.
Defined.

Lemma normalized_keeps_directory_witness :
  normalized ("https://cdn.example.com/1050" ++ "/" ++ "NewApp.dmg")
  = "https://cdn.example.com/1050" ++ "/GoToMeeting.dmg"
  /\ normalized "NewApp.dmg" = "GoToMeeting.dmg".
Proof. apply normalized_keeps_directory. reflexivity. Defined.


Lemma main_without_cache_dir_witness :
  main Examples.plain_globals MoreExamples.without_cache_dir
  = (inl (Raise KeyError "RECIPE_CACHE_DIR"), MoreExamples.without_cache_dir).
Proof. apply main_without_cache_dir. vm_compute; reflexivity. Defined.

Lemma makedirs_errors_witness :
  get_g2m_info (H := MoreExamples.denied_host) Examples.feed_url MoreExamples.denied
  = after_makedirs (H := MoreExamples.denied_host) Examples.feed_url "/cache"
      (with_world MoreExamples.denied (host_world MoreExamples.denied))
  /\ fst (get_g2m_info (H := MoreExamples.denied_host) Examples.feed_url MoreExamples.denied)
     = inr ("https://cdn.example.com/1050/GoToMeeting.dmg", "1050").
Proof.
  split; [|vm_compute; reflexivity].
  apply (makedirs_errors (H := MoreExamples.denied_host) Examples.feed_url "/cache"
           MoreExamples.denied (Raise PermissionError "/cache/downloads")).
  - vm_compute; reflexivity.
  - reflexivity.
Defined.

Lemma download_error_propagates_witness :
  exists w2,
    get_g2m_info "https://elsewhere.example.com/feed.json"
      (Examples.serving Examples.two_builds_text)
    = (inl (Raise ProcessorError "curl failed"),
       with_world (Examples.serving Examples.two_builds_text) w2).
Proof.
  eexists.
  apply (download_error_propagates "https://elsewhere.example.com/feed.json" "/cache"
           (Examples.serving Examples.two_builds_text) (inr tt)
           (snd (RefHost.makedirs "/cache/downloads"
                   (host_world (Examples.serving Examples.two_builds_text))))).
  - vm_compute; reflexivity.
  - apply pair_of_fst. vm_compute; reflexivity.
  - by left.
  - apply pair_of_fst. vm_compute; reflexivity.
Defined.

Lemma read_error_propagates_witness :
  get_g2m_info (H := MoreExamples.forgetful_host) Examples.feed_url MoreExamples.forgetful
  = (inl (Raise FileNotFoundError "/cache/downloads/meta"),
     snd (download_feed (H := MoreExamples.forgetful_host) Examples.feed_url
            MoreExamples.forgetful)).
Proof.
  apply (read_error_propagates (H := MoreExamples.forgetful_host) Examples.feed_url
           "/cache/downloads/meta").
  - apply pair_of_fst. vm_compute; reflexivity.
  - vm_compute; reflexivity.
Defined.

Lemma decoding_outcome_witness :
  get_g2m_info Examples.feed_url
    (Examples.serving (RefHost.gzip_stored Examples.two_builds_text))
  = (latest_release (Examples.feed_of Examples.two_builds),
     with_world (Examples.downloaded (RefHost.gzip_stored Examples.two_builds_text))
       (output "Encoding: gzip"
          (host_world (Examples.downloaded (RefHost.gzip_stored Examples.two_builds_text))))).
Proof.
  refine (proj2 (decoding_outcome Examples.feed_url
                   (Examples.serving (RefHost.gzip_stored Examples.two_builds_text))
                   (Examples.downloaded (RefHost.gzip_stored Examples.two_builds_text))
                   (RefHost.gzip_stored Examples.two_builds_text)
                   (Examples.feed_of Examples.two_builds) _)
            (Raise JSONDecodeError "Expecting value") Examples.two_builds_text _ _ _ _).
  - apply downloaded_on_reference; vm_compute; reflexivity.
  - vm_compute; reflexivity.
  - reflexivity.
  - vm_compute; reflexivity.
  - vm_compute; reflexivity.
Defined.


Lemma load_module_sound_witness :
  BASE_URL {| HOSTNAME := "e4242.dscb.akamaiedge.net";
              BASE_URL := "https://e4242.dscb.akamaiedge.net/g2mupdater/live/config.json" |}
  = "https://"
    ++ HOSTNAME {| HOSTNAME := "e4242.dscb.akamaiedge.net";
                   BASE_URL := "https://e4242.dscb.akamaiedge.net/g2mupdater/live/config.json" |}
    ++ "/g2mupdater/live/config.json"
  /\ (HOSTNAME {| HOSTNAME := "e4242.dscb.akamaiedge.net";
                  BASE_URL := "https://e4242.dscb.akamaiedge.net/g2mupdater/live/config.json" |}
      = "builds.cdn.getgo.com"
      /\ (is_mac Examples.sierra = false
          \/ loose_version_lt Examples.sierra (mac_ver Examples.sierra) "10.13.0" = false)
      \/ is_mac Examples.sierra = true
         /\ loose_version_lt Examples.sierra (mac_ver Examples.sierra) "10.13.0" = true
         /\ exists aliases addresses,
              gethostbyname_ex Examples.sierra "builds.cdn.getgo.com"
              = inr (HOSTNAME {| HOSTNAME := "e4242.dscb.akamaiedge.net";
                                 BASE_URL := "https://e4242.dscb.akamaiedge.net/g2mupdater/live/config.json" |},
                     aliases, addresses)).
Proof.
  apply (load_module_sound Examples.sierra). vm_compute; reflexivity.
Defined.

Lemma main_sets_declared_outputs_witness :
  env (snd (main Examples.plain_globals (Examples.serving Examples.two_builds_text)))
    !! "RECIPE_CACHE_DIR"
  = env (Examples.serving Examples.two_builds_text) !! "RECIPE_CACHE_DIR"
  /\ (fst (main Examples.plain_globals (Examples.serving Examples.two_builds_text)) = inr tt ->
      Forall (fun out =>
                is_Some (env (snd (main Examples.plain_globals
                                     (Examples.serving Examples.two_builds_text))) !! out))
             output_variables).
Proof.
  apply (main_sets_declared_outputs Examples.plain_globals
           (Examples.serving Examples.two_builds_text) "RECIPE_CACHE_DIR").
  intros Hin. repeat (apply elem_of_cons in Hin as [Heq | Hin]; [discriminate Heq|]).
  by apply elem_of_nil in Hin.
Defined.

Lemma newest_build_number_any_order_witness :
  exists m',
    py_max build_key (rev MoreExamples.tied_builds) = inr m' /\ build_key m' = inr 1050.
Proof.
  apply (newest_build_number_any_order MoreExamples.tied_builds (rev MoreExamples.tied_builds)
           (Examples.entry "1050" "https://cdn.example.com/a/First.dmg")).
  - apply Permutation_rev.
  - reflexivity.
  - reflexivity.
Defined.

Lemma latest_release_errors_witness :
  exc_class (Raise ValueError "max() arg is an empty sequence") ∈ selection_errors
  /\ (exc_class (Raise ValueError "max() arg is an empty sequence") = ProcessorError ->
      Raise ValueError "max() arg is an empty sequence" = no_download_url).
Proof.
  apply (latest_release_errors (Examples.feed_of [])). reflexivity.
Defined.
